(** * Source-image path resolver: a shallow embedding of [utils.py] and
      [plugin.py]

    The Python functions are embedded as Rocq functions over
    - a type [pyval] of the Python values that flow through them
      (JSON-like: [None], booleans, integers, strings, lists and dicts
      with string keys),
    - an error monad [M] whose [Raise] is a Python exception, and
    - a read-only operating-system interface [filesystem] answering the
      calls the code makes ([os.path.isdir], [os.path.isfile],
      [glob.glob(..., recursive=True)], [os.path.getmtime]).

    [os.path] is embedded in its POSIX flavour ([posixpath]).  Strings are
    sequences of characters; [str.lower] is embedded on the ASCII letters:
    the code only asks whether the lowered path contains one of the ASCII
    markers [gradio], [temp] and [appdata], and the two characters outside
    ASCII whose lower-case form has an ASCII letter in it (U+0130 and
    U+212A) cannot complete any of them. *)

From Stdlib Require Import String Ascii List ZArith Bool Lia.
Import ListNotations.
Local Open Scope string_scope.
Local Open Scope list_scope.

(* ------------------------------------------------------------------ *)
(** ** Python values, truthiness, equality *)

#[local] Set Warnings "-register-all".

Inductive pyval : Type :=
| VNone
| VBool (b : bool)
| VInt (z : Z)
| VStr (s : string)
| VList (l : list pyval)
| VDict (d : list (string * pyval)).

(** A dict is kept as an association list in insertion order; a
    well-formed one has no repeated key. *)
Definition dict := list (string * pyval).

Fixpoint dict_get {A : Type} (d : list (string * A)) (k : string) : option A :=
  match d with
  | [] => None
  | (k', v) :: d' => if String.eqb k' k then Some v else dict_get d' k
  end.

(** [d[k] = v]: an existing key keeps its place, a new key goes last. *)
Fixpoint dict_set {A : Type} (d : list (string * A)) (k : string) (v : A)
  : list (string * A) :=
  match d with
  | [] => [(k, v)]
  | (k', v') :: d' =>
      if String.eqb k' k then (k', v) :: d' else (k', v') :: dict_set d' k v
  end.

(** [d.get(k)] and [d.get(k, default)]. *)
Definition py_get (d : dict) (k : string) : pyval :=
  match dict_get d k with Some v => v | None => VNone end.

Definition py_get_default (d : dict) (k : string) (dflt : pyval) : pyval :=
  match dict_get d k with Some v => v | None => dflt end.

(** [bool(v)]. *)
Definition truthy (v : pyval) : bool :=
  match v with
  | VNone => false
  | VBool b => b
  | VInt z => negb (Z.eqb z 0)
  | VStr s => negb (String.eqb s "")
  | VList l => match l with [] => false | _ => true end
  | VDict d => match d with [] => false | _ => true end
  end.

(** [a == b]; [True == 1] and [False == 0] as in Python, dicts compared
    regardless of order. *)
Fixpoint py_eq (a b : pyval) {struct a} : bool :=
  match a, b with
  | VNone, VNone => true
  | VBool x, VBool y => Bool.eqb x y
  | VBool x, VInt y => Z.eqb (Z.b2z x) y
  | VInt x, VBool y => Z.eqb x (Z.b2z y)
  | VInt x, VInt y => Z.eqb x y
  | VStr x, VStr y => String.eqb x y
  | VList l, VList m =>
      (fix go (l m : list pyval) : bool :=
         match l, m with
         | [], [] => true
         | x :: l', y :: m' => py_eq x y && go l' m'
         | _, _ => false
         end) l m
  | VDict d, VDict e =>
      Nat.eqb (length d) (length e) &&
      (fix go (d : list (string * pyval)) : bool :=
         match d with
         | [] => true
         | (k, v) :: d' =>
             match dict_get e k with
             | Some w => py_eq v w
             | None => false
             end && go d'
         end) d
  | _, _ => false
  end.

(** [x in l] for a list [l]. *)
Definition py_in (x : pyval) (l : list pyval) : bool :=
  existsb (py_eq x) l.

(* ------------------------------------------------------------------ *)
(** ** Exceptions *)

Inductive exn : Type := TypeError | AttributeError | OSError.

Inductive M (A : Type) : Type :=
| Ret (a : A)
| Raise (e : exn).
Arguments Ret {A} a.
Arguments Raise {A} e.

Definition bind {A B : Type} (c : M A) (k : A -> M B) : M B :=
  match c with
  | Ret a => k a
  | Raise e => Raise e
  end.

Notation "x <- c ;; k" := (bind c (fun x => k))
  (at level 61, c at next level, right associativity).

(** Run [f] on every element, left to right, stopping at the first
    exception. *)
Fixpoint mapM {A B : Type} (f : A -> M B) (l : list A) : M (list B) :=
  match l with
  | [] => Ret []
  | x :: l' => y <- f x ;; ys <- mapM f l' ;; Ret (y :: ys)
  end.

(* ------------------------------------------------------------------ *)
(** ** Strings: [str.lower], [in], and [posixpath] *)

Definition lower_char (c : ascii) : ascii :=
  let n := nat_of_ascii c in
  if (65 <=? n)%nat && (n <=? 90)%nat then ascii_of_nat (n + 32) else c.

Fixpoint lower (s : string) : string :=
  match s with
  | EmptyString => EmptyString
  | String c r => String (lower_char c) (lower r)
  end.

(** [needle in hay]. *)
Fixpoint contains (needle hay : string) : bool :=
  if String.prefix needle hay then true
  else match hay with
       | EmptyString => false
       | String _ r => contains needle r
       end.

Definition is_sep (c : ascii) : bool := Ascii.eqb c "/"%char.

Definition startswith_sep (s : string) : bool :=
  match s with
  | String c _ => is_sep c
  | EmptyString => false
  end.

Fixpoint endswith_sep (s : string) : bool :=
  match s with
  | EmptyString => false
  | String c EmptyString => is_sep c
  | String _ r => endswith_sep r
  end.

(** [posixpath.join(a, b)]. *)
Definition path_join (a b : string) : string :=
  if startswith_sep b then b
  else if String.eqb a "" || endswith_sep a then a ++ b
  else a ++ "/" ++ b.

(** [(p[:i], p[i:])] for [i = p.rfind('/') + 1]. *)
Fixpoint rsplit_sep (p : string) : string * string :=
  match p with
  | EmptyString => (EmptyString, EmptyString)
  | String c r =>
      let (h, t) := rsplit_sep r in
      match h with
      | EmptyString =>
          if is_sep c then (String c EmptyString, t) else (EmptyString, String c t)
      | _ => (String c h, t)
      end
  end.

Fixpoint all_sep (s : string) : bool :=
  match s with
  | EmptyString => true
  | String c r => is_sep c && all_sep r
  end.

(** [s.rstrip('/')]. *)
Fixpoint rstrip_sep (s : string) : string :=
  match s with
  | EmptyString => EmptyString
  | String c r =>
      match rstrip_sep r with
      | EmptyString => if is_sep c then EmptyString else String c EmptyString
      | r' => String c r'
      end
  end.

(** [posixpath.split(p)]. *)
Definition path_split (p : string) : string * string :=
  let (head, tail) := rsplit_sep p in
  (if negb (String.eqb head "") && negb (all_sep head)
   then rstrip_sep head else head, tail).

Definition basename (p : string) : string := snd (rsplit_sep p).
Definition dirname (p : string) : string := fst (path_split p).

(* ------------------------------------------------------------------ *)
(** ** The operating system, as the code observes it *)

(** The answers of the operating system to the read-only calls of the
    code.  [getmtime p = None] stands for [os.path.getmtime(p)] raising
    [OSError] (the path cannot be stat-ed).  [fd_isdir] and [fd_isfile]
    answer [os.path.isdir] and [os.path.isfile] on an integer, which
    Python takes as an open file descriptor.  Modification times are the
    numbers [os.path.getmtime] reports; only their order is used. *)
Record filesystem : Type := {
  isdir : string -> bool;
  isfile : string -> bool;
  fd_isdir : Z -> bool;
  fd_isfile : Z -> bool;
  glob : string -> list string;
  getmtime : string -> option Z
}.

(** What the two modules read from their surroundings: the file system,
    [os.path.abspath(__file__)] of each module, and the host's
    [server_config] as reached through the global [_plugin_instance]
    ([None] when there is no instance, no such attribute, or no value). *)
Record env : Type := {
  fs : filesystem;
  utils_file : string;
  plugin_file : string;
  server_config : option dict
}.

Section Resolver.

Variable E : env.

(** [os.path.isdir(v)], [os.path.isfile(v)]: a string is a path, an
    integer (or boolean) a file descriptor, anything else a [TypeError]. *)
Definition os_path_isdir (v : pyval) : M bool :=
  match v with
  | VStr s => Ret (isdir (fs E) s)
  | VInt n => Ret (fd_isdir (fs E) n)
  | VBool b => Ret (fd_isdir (fs E) (Z.b2z b))
  | _ => Raise TypeError
  end.

Definition os_path_isfile (v : pyval) : M bool :=
  match v with
  | VStr s => Ret (isfile (fs E) s)
  | VInt n => Ret (fd_isfile (fs E) n)
  | VBool b => Ret (fd_isfile (fs E) (Z.b2z b))
  | _ => Raise TypeError
  end.

(** [os.path.join(a, b)]: both components must be strings. *)
Definition os_path_join (a b : pyval) : M string :=
  match a, b with
  | VStr x, VStr y => Ret (path_join x y)
  | _, _ => Raise TypeError
  end.

Definition os_path_getmtime (p : string) : M Z :=
  match getmtime (fs E) p with
  | Some t => Ret t
  | None => Raise OSError
  end.

(** [max(matches, key=os.path.getmtime)] on a non-empty list: the key of
    every element is computed in order, a later element replaces the
    current one only when its key is strictly greater. *)
Fixpoint max_loop (maxitem : string) (maxval : Z) (rest : list string)
  : M string :=
  match rest with
  | [] => Ret maxitem
  | item :: rest' =>
      val <- os_path_getmtime item ;;
      if (val >? maxval)%Z then max_loop item val rest'
      else max_loop maxitem maxval rest'
  end.

Definition max_by_mtime (first : string) (rest : list string) : M string :=
  maxval <- os_path_getmtime first ;;
  max_loop first maxval rest.

(* ------------------------------------------------------------------ *)
(** ** [utils.py] *)

(** The body of [for search_dir in search_dirs:] in
    [find_file_by_name]. *)
Fixpoint search_loop (filename : pyval) (recursive : bool)
  (search_dirs : list pyval) : M pyval :=
  match search_dirs with
  | [] => Ret VNone
  | search_dir :: rest =>
      d <- os_path_isdir search_dir ;;
      if negb d then search_loop filename recursive rest
      else
        direct_path <- os_path_join search_dir filename ;;
        if isfile (fs E) direct_path then Ret (VStr direct_path)
        else if recursive then
          prefix <- os_path_join search_dir (VStr "**") ;;
          pattern <- os_path_join (VStr prefix) filename ;;
          match glob (fs E) pattern with
          | [] => search_loop filename recursive rest
          | m :: ms => r <- max_by_mtime m ms ;; Ret (VStr r)
          end
        else search_loop filename recursive rest
  end.

(** [os.path.join(root_dir, 'outputs')] for the module at [file]. *)
Definition default_outputs (file : string) : string :=
  let plugin_dir := dirname file in
  let root_dir := dirname (dirname plugin_dir) in
  path_join root_dir "outputs".

(** [find_file_by_name(filename, search_dirs=None, recursive=True)]. *)
Definition find_file_by_name (filename : pyval)
  (search_dirs : option (list pyval)) (recursive : bool) : M pyval :=
  if negb (truthy filename) then Ret VNone
  else
    let search_dirs :=
      match search_dirs with
      | None | Some [] => [VStr (default_outputs (utils_file E))]
      | Some l => l
      end in
    search_loop filename recursive search_dirs.

(** The classification of a path string in [resolve_source_image]. *)
Definition is_temp_utils (source_info : string) : bool :=
  contains "gradio" (lower source_info) && contains "temp" (lower source_info).

(** [resolve_source_image(source_info, search_dirs=None)]. *)
Definition resolve_source_image (source_info : pyval)
  (search_dirs : option (list pyval)) : M pyval :=
  if negb (truthy source_info) then Ret VNone
  else
    match source_info with
    | VStr s =>
        let is_temp := is_temp_utils s in
        if negb is_temp && isfile (fs E) s then Ret (VStr s)
        else
          let filename := basename s in
          found <- find_file_by_name (VStr filename) search_dirs true ;;
          if truthy found then Ret found
          else if isfile (fs E) s then Ret (VStr s)
          else Ret VNone
    | VDict d =>
        let path := py_get d "path" in
        let filename := py_get d "filename" in
        let is_temp := py_get_default d "is_temp" (VBool false) in
        direct <-
          (if negb (truthy is_temp) && truthy path then os_path_isfile path
           else Ret false) ;;
        if direct then Ret path
        else
          found <-
            (if truthy filename then find_file_by_name filename search_dirs true
             else Ret VNone) ;;
          if truthy filename && truthy found then Ret found
          else
            last <- (if truthy path then os_path_isfile path else Ret false) ;;
            if last then Ret path else Ret VNone
    | _ => Ret VNone
    end.

(** The inner [for item in value:] of [get_source_images_from_metadata]. *)
Fixpoint resolve_items (search_dirs : option (list pyval))
  (value resolved_list : list pyval) : M (list pyval) :=
  match value with
  | [] => Ret resolved_list
  | item :: value' =>
      resolved <- resolve_source_image item search_dirs ;;
      if truthy resolved
      then resolve_items search_dirs value' (resolved_list ++ [resolved])
      else resolve_items search_dirs value' resolved_list
  end.

(** The outer [for key, value in source_images.items():]. *)
Fixpoint resolve_roles (search_dirs : option (list pyval))
  (items : list (string * pyval)) (result : dict) : M dict :=
  match items with
  | [] => Ret result
  | (key, value) :: items' =>
      match value with
      | VNone => resolve_roles search_dirs items' result
      | VList l =>
          resolved_list <- resolve_items search_dirs l [] ;;
          match resolved_list with
          | [] => resolve_roles search_dirs items' result
          | [single] =>
              resolve_roles search_dirs items' (dict_set result key single)
          | _ =>
              resolve_roles search_dirs items'
                (dict_set result key (VList resolved_list))
          end
      | _ =>
          resolved <- resolve_source_image value search_dirs ;;
          if truthy resolved
          then resolve_roles search_dirs items' (dict_set result key resolved)
          else resolve_roles search_dirs items' result
      end
  end.

(** [get_source_images_from_metadata(metadata, search_dirs=None)]. *)
Definition get_source_images_from_metadata (metadata : dict)
  (search_dirs : option (list pyval)) : M pyval :=
  let source_images := py_get_default metadata "source_images" (VDict []) in
  if negb (truthy source_images) then Ret (VDict [])
  else
    match source_images with
    | VDict items =>
        result <- resolve_roles search_dirs items [] ;;
        Ret (VDict result)
    | _ => Raise AttributeError
    end.

(* ------------------------------------------------------------------ *)
(** ** [plugin.py] *)

Definition CONFIG_KEY_SEARCH_DIRS : string := "source_images_search_dirs".

(** The loop body shared by the two [for] loops of
    [get_configured_output_dirs]:
    [if path and os.path.isdir(path) and path not in search_dirs:
       search_dirs.append(path)]. *)
Fixpoint add_dirs (paths search_dirs : list pyval) : M (list pyval) :=
  match paths with
  | [] => Ret search_dirs
  | path :: rest =>
      d <- (if truthy path then os_path_isdir path else Ret false) ;;
      if d && negb (py_in path search_dirs)
      then add_dirs rest (search_dirs ++ [path])
      else add_dirs rest search_dirs
  end.

(** [get_configured_output_dirs()]. *)
Definition get_configured_output_dirs : M (list pyval) :=
  search_dirs <-
    match server_config E with
    | Some ((_ :: _) as config) =>
        search_dirs <-
          add_dirs (map (py_get config)
                      ["save_path"; "image_save_path"; "audio_save_path"]) [] ;;
        match py_get_default config CONFIG_KEY_SEARCH_DIRS (VList []) with
        | VList custom_dirs => add_dirs custom_dirs search_dirs
        | _ => Ret search_dirs
        end
    | _ => Ret []
    end ;;
  let default := default_outputs (plugin_file E) in
  if isdir (fs E) default && negb (py_in (VStr default) search_dirs)
  then Ret (search_dirs ++ [VStr default])
  else Ret search_dirs.

(** The classification of a path string in [resolve_and_build_info]. *)
Definition is_temp_plugin (path : string) : bool :=
  contains "gradio" (lower path) &&
  (contains "temp" (lower path) || contains "appdata" (lower path)).

(** [resolve_and_build_info(path)]; the [print] calls leave the result
    untouched and are left out ([resolve_and_build_info_io] has them: a
    [print] that fails raises). *)
Definition resolve_and_build_info (path : pyval) : M pyval :=
  match path with
  | VStr p =>
      if negb (truthy path) then Ret VNone
      else
        let filename := basename p in
        let is_temp := is_temp_plugin p in
        let info : dict :=
          [("filename", VStr filename); ("is_temp", VBool is_temp)] in
        if is_temp then
          search_dirs <- get_configured_output_dirs ;;
          original_path <-
            find_file_by_name (VStr filename) (Some search_dirs) true ;;
          if truthy original_path
          then Ret (VDict (dict_set info "original_path" original_path))
          else Ret (VDict (dict_set info "temp_path" path))
        else Ret (VDict (dict_set info "original_path" path))
  | _ => Ret VNone
  end.

(** The inner [for p in value:] of [process_source_paths]. *)
Fixpoint build_infos (value info_list : list pyval) : M (list pyval) :=
  match value with
  | [] => Ret info_list
  | p :: value' =>
      info <- resolve_and_build_info p ;;
      if truthy info then build_infos value' (info_list ++ [info])
      else build_infos value' info_list
  end.

(** The outer [for key, value in source_paths.items():]. *)
Fixpoint build_roles (items : list (string * pyval)) (result : dict) : M dict :=
  match items with
  | [] => Ret result
  | (key, value) :: items' =>
      match value with
      | VNone => build_roles items' result
      | VList l =>
          info_list <- build_infos l [] ;;
          match info_list with
          | [] => build_roles items' result
          | [single] => build_roles items' (dict_set result key single)
          | _ => build_roles items' (dict_set result key (VList info_list))
          end
      | VStr _ =>
          info <- resolve_and_build_info value ;;
          if truthy info then build_roles items' (dict_set result key info)
          else build_roles items' result
      | _ => build_roles items' result
      end
  end.

(** [process_source_paths(source_paths)]. *)
Definition process_source_paths (source_paths : pyval) : M pyval :=
  if negb (truthy source_paths) then Ret VNone
  else
    match source_paths with
    | VDict items =>
        result <- build_roles items [] ;;
        if truthy (VDict result) then Ret (VDict result) else Ret VNone
    | _ => Raise AttributeError
    end.

End Resolver.

(* ------------------------------------------------------------------ *)
(** ** The role loops, in the words of the specification *)

(** What a list of per-element results leaves behind: nothing, the one
    element itself, or the list. *)
Definition collapse (kept : list pyval) : option pyval :=
  match kept with
  | [] => None
  | [single] => Some single
  | _ => Some (VList kept)
  end.

Section RoleSpec.

Variable f : pyval -> M pyval.
Variable single_ok : pyval -> bool.

(** The entry a role value contributes: a sequence has [f] applied to
    each element, nulls dropped and the rest collapsed; a single value
    accepted by [single_ok] contributes its non-null result; anything
    else contributes nothing. *)
Definition spec_role_info (value : pyval) : M (option pyval) :=
  match value with
  | VNone => Ret None
  | VList l => rs <- mapM f l ;; Ret (collapse (filter truthy rs))
  | _ =>
      if single_ok value
      then r <- f value ;; Ret (if truthy r then Some r else None)
      else Ret None
  end.

(** The common shape of the two pairs of loops in the code
    ([build_infos]/[build_roles] and [resolve_items]/[resolve_roles]),
    used to reason about both at once. *)
Fixpoint loop_items (value kept : list pyval) : M (list pyval) :=
  match value with
  | [] => Ret kept
  | x :: value' =>
      r <- f x ;;
      if truthy r then loop_items value' (kept ++ [r])
      else loop_items value' kept
  end.

Fixpoint loop_roles (items : list (string * pyval)) (result : dict) : M dict :=
  match items with
  | [] => Ret result
  | (key, value) :: items' =>
      match value with
      | VNone => loop_roles items' result
      | VList l =>
          kept <- loop_items l [] ;;
          match kept with
          | [] => loop_roles items' result
          | [single] => loop_roles items' (dict_set result key single)
          | _ => loop_roles items' (dict_set result key (VList kept))
          end
      | _ =>
          if single_ok value then
            r <- f value ;;
            if truthy r then loop_roles items' (dict_set result key r)
            else loop_roles items' result
          else loop_roles items' result
      end
  end.

End RoleSpec.

Definition is_str (v : pyval) : bool :=
  match v with VStr _ => true | _ => false end.

(** The entry of role [k] in a result that is [None] or a dict. *)
Definition role_lookup (r : pyval) (k : string) : option pyval :=
  match r with
  | VDict out => dict_get out k
  | _ => None
  end.

(* ------------------------------------------------------------------ *)
(** ** A concrete file system: a tree of files and directories *)

Module TreeFS.

(** A POSIX tree without symbolic links.  Entries of a directory are
    listed in the order [os.scandir] reports them. *)
Inductive node : Type :=
| File (mtime : Z)
| Dir (mtime : Z) (entries : list (string * node)).

Definition node_mtime (n : node) : Z :=
  match n with File t => t | Dir t _ => t end.

(** [p.split('/')]. *)
Fixpoint components (p : string) : list string :=
  match p with
  | EmptyString => [EmptyString]
  | String c r =>
      if is_sep c then EmptyString :: components r
      else match components r with
           | [] => [String c EmptyString]
           | x :: xs => String c x :: xs
           end
  end.

(** Path resolution from [cur], whose ancestors are [anc]. *)
Fixpoint walk (cur : node) (anc : list node) (comps : list string)
  : option node :=
  match comps with
  | [] => Some cur
  | c :: cs =>
      match cur with
      | File _ => None
      | Dir _ es =>
          if String.eqb c "" || String.eqb c "." then walk cur anc cs
          else if String.eqb c ".." then
            match anc with
            | [] => walk cur [] cs
            | a :: anc' => walk a anc' cs
            end
          else match dict_get es c with
               | Some n => walk n (cur :: anc) cs
               | None => None
               end
      end
  end.

(** [os.stat(p)] with [root] as both [/] and the working directory. *)
Definition lookup (root : node) (p : string) : option node :=
  if String.eqb p "" then None else walk root [] (components p).

Definition tree_isdir (root : node) (p : string) : bool :=
  match lookup root p with Some (Dir _ _) => true | _ => false end.

Definition tree_isfile (root : node) (p : string) : bool :=
  match lookup root p with Some (File _) => true | _ => false end.

Definition tree_lexists (root : node) (p : string) : bool :=
  match lookup root p with Some _ => true | None => false end.

Definition tree_getmtime (root : node) (p : string) : option Z :=
  option_map node_mtime (lookup root p).

(** [glob.has_magic]. *)
Definition has_magic (s : string) : bool :=
  contains "*" s || contains "?" s || contains "[" s.

Definition ishidden (name : string) : bool := String.prefix "." name.

(** [glob._rlistdir(dirname, dironly=True)]: the sub-directories below a
    directory, parents before children, hidden ones skipped. *)
Fixpoint rlistdir (n : node) : list string :=
  match n with
  | File _ => []
  | Dir _ es =>
      (fix go (es : list (string * node)) : list string :=
         match es with
         | [] => []
         | (x, c) :: es' =>
             match c with
             | Dir _ _ =>
                 if ishidden x then go es'
                 else (x :: map (path_join x) (rlistdir c)) ++ go es'
             | File _ => go es'
             end
         end) es
  end.

(** [glob.glob(pattern, recursive=True)] for the patterns the resolver
    builds from names free of [*], [?] and [[]: a pattern without such a
    character matches itself when it exists, and [dir/**/name] matches
    every existing [sub/name] (a file or a directory) for [sub] the
    directory [dir] or a non-hidden directory below it.  Other patterns
    are outside this model and match nothing. *)
Definition tree_glob (root : node) (pattern : string) : list string :=
  if negb (has_magic pattern) then
    if tree_lexists root pattern then [pattern] else []
  else
    let (dirname1, name) := path_split pattern in
    let (dirname2, stars) := path_split dirname1 in
    if String.eqb stars "**" && negb (has_magic name)
       && negb (String.eqb name "") && negb (has_magic dirname2)
       && negb (String.eqb dirname2 "")
    then
      match lookup root dirname2 with
      | Some (Dir _ _ as n) =>
          let dirs :=
            path_join dirname2 "" :: map (path_join dirname2) (rlistdir n) in
          filter (tree_lexists root) (map (fun d => path_join d name) dirs)
      | _ => []
      end
    else [].

(** No open file descriptor refers to a file or directory of the tree. *)
Definition tree_fs (root : node) : filesystem := {|
  isdir := tree_isdir root;
  isfile := tree_isfile root;
  fd_isdir := fun _ => false;
  fd_isfile := fun _ => false;
  glob := tree_glob root;
  getmtime := tree_getmtime root
|}.

End TreeFS.

(* ------------------------------------------------------------------ *)
(** ** A sample installation *)

Module Sample.
Import TreeFS.

Definition root : node :=
  Dir 0 [
    ("app", Dir 0 [
       ("outputs", Dir 0 [("img.png", File 5)]);
       ("plugins", Dir 0 [
          ("source_images", Dir 0 [
             ("utils.py", File 1); ("plugin.py", File 1)])])]);
    ("a", Dir 0 [("sub", Dir 0 [("img.png", File 1)])]);
    ("b", Dir 0 [("img.png", File 2)]);
    ("out", Dir 0 [
       ("x", Dir 0 [("pic.png", File 10)]);
       ("y", Dir 0 [("pic.png", File 20)]);
       ("z", Dir 0 [("dir.png", Dir 30 [])])]);
    ("real", Dir 0 [("a.png", File 3); ("b.png", File 4)]);
    ("Temp", Dir 0 [
       ("gradio", Dir 0 [
          ("abc", Dir 0 [("img.png", File 9); ("photo.png", File 9)])])]);
    ("home", Dir 0 [
       ("u", Dir 0 [
          ("AppData", Dir 0 [
             ("gradio", Dir 0 [("img.png", File 8)])])])])
  ].

Definition sample_env : env := {|
  fs := tree_fs root;
  utils_file := "/app/plugins/source_images/utils.py";
  plugin_file := "/app/plugins/source_images/plugin.py";
  server_config := None
|}.

(** The same tree seen from a plugin installed where no default
    [outputs] directory exists. *)
Definition bare_env : env := {|
  fs := tree_fs root;
  utils_file := "/opt/host/plugins/source_images/utils.py";
  plugin_file := "/opt/host/plugins/source_images/plugin.py";
  server_config := None
|}.

(** A record for an upload whose original is not in any output
    directory, while its temporary copy still exists. *)
Definition sample_record : dict :=
  [("path", VStr "/Temp/gradio/abc/photo.png");
   ("filename", VStr "photo.png");
   ("is_temp", VBool true)].

(** Captured input paths by role. *)
Definition sample_roles : dict :=
  [("image_start", VStr "/Temp/gradio/abc/photo.png");
   ("image_refs", VList [VStr "/real/a.png"; VStr "/real/b.png"]);
   ("image_end", VNone);
   ("image_guide", VList [VStr ""; VNone]);
   ("image_mask", VList [VStr "/real/a.png"; VNone])].

(** The [source_images] entry of a saved output, and its metadata. *)
Definition sample_images : dict :=
  [("image_start", VDict sample_record);
   ("image_refs", VList [VStr "/real/a.png"; VStr "/nowhere/zzz.png"]);
   ("image_mask", VList [VStr "/nowhere/q.png"])].

Definition sample_metadata : dict :=
  [("prompt", VStr "a cat"); ("source_images", VDict sample_images)].

End Sample.

(* ------------------------------------------------------------------ *)
(** ** Vocabulary of the statements *)

(** Directory [p] contributes nothing to a search for [f]: it does not
    exist, or it holds no direct file [f] and (when the search is
    recursive) the recursive pattern matches nothing. *)
Definition no_match (E : env) (f : string) (recursive : bool) (p : string)
  : Prop :=
  isdir (fs E) p = false \/
  (isfile (fs E) (path_join p f) = false /\
   (recursive = true ->
    glob (fs E) (path_join (path_join p "**") f) = [])).

(** The first listed directory that exists and has [f] as a direct file
    child. *)
Definition first_direct_dir (E : env) (f : string) (dirs : list string)
  : option string :=
  find (fun d => isdir (fs E) d && isfile (fs E) (path_join d f)) dirs.


(* ------------------------------------------------------------------ *)
(** ** [plugin.py]: the metadata hook *)

(** [before_metadata_save_hook(configs, plugin_data=None, ...)].  The
    code stores into [configs] in place and returns that same object; the
    value returned here is its content afterwards.  [model_type] and the
    other keyword arguments are not used.  The [print] call leaves the
    result untouched and is left out ([before_metadata_save_hook_io] has
    it: a [print] that fails raises). *)
Definition before_metadata_save_hook (E : env) (configs plugin_data : pyval)
  : M pyval :=
  match configs with
  | VNone => Ret VNone
  | _ =>
      source_paths <-
        (if truthy plugin_data then
           match plugin_data with
           | VDict d => Ret (py_get_default d "source_image_paths" (VDict []))
           | _ => Raise AttributeError
           end
         else Ret (VDict [])) ;;
      source_info <- process_source_paths E source_paths ;;
      if truthy source_info then
        match configs with
        | VDict c => Ret (VDict (dict_set c "source_images" source_info))
        | _ => Raise TypeError
        end
      else Ret configs
  end.

(* ------------------------------------------------------------------ *)
(** ** The same code with its [print] calls *)

(** What a [print] call writes: literal text and formatted values
    ([FormattedError] is the caught exception of an [except] handler). *)
Inductive piece : Type :=
| Text (s : string)
| Formatted (v : pyval)
| FormattedError.

Definition message := list piece.

(** How a call ends when writing to standard output and importing count
    too: it returns, it raises one of the exceptions of [M], or a [print]
    (or an [import]) raises, whatever that exception is. *)
Inductive io (A : Type) : Type :=
| IORet (a : A)
| IORaise (e : exn)
| IOFail.
Arguments IORet {A} a.
Arguments IORaise {A} e.
Arguments IOFail {A}.

Definition of_M {A : Type} (c : M A) : io A :=
  match c with
  | Ret a => IORet a
  | Raise e => IORaise e
  end.

Definition io_bind {A B : Type} (c : io A) (k : A -> io B) : io B :=
  match c with
  | IORet a => k a
  | IORaise e => IORaise e
  | IOFail => IOFail
  end.

Notation "x <-- c ;; k" := (io_bind c (fun x => k))
  (at level 61, c at next level, right associativity).

(** [print(m)], where [print_ok m] tells whether standard output takes
    the message (it raises, for instance, when it cannot encode it). *)
Definition print (print_ok : message -> bool) (m : message) : io unit :=
  if print_ok m then IORet tt else IOFail.


Section Printing.

Variable E : env.
Variable print_ok : message -> bool.






End Printing.

(* ------------------------------------------------------------------ *)
(** ** [utils.py]: loading the image *)

Section Loader.

Variable E : env.

(** Whether [from PIL import Image] succeeds; [PIL.Image.open(path)],
    [None] when it raises an [Exception], which the code catches; and
    whether standard output takes a message. *)
Variable import_ok : bool.
Variable image : Type.
Variable image_open : pyval -> option image.
Variable print_ok : message -> bool.

(** [load_source_image(source_info, search_dirs=None)]. *)
Definition load_source_image (source_info : pyval)
  (search_dirs : option (list pyval)) : io (option image) :=
  if negb import_ok then IOFail
  else
    path <-- of_M (resolve_source_image E source_info search_dirs) ;;
    ok <-- of_M (if truthy path then os_path_isfile E path else Ret false) ;;
    if ok then
      match image_open path with
      | Some img => IORet (Some img)
      | None =>
          _ <-- print print_ok
                  [Text "[SourceImagesUtils] Error loading image ";
                   Formatted path; Text ": "; FormattedError] ;;
          IORet None
      end
    else IORet None.

End Loader.

(* ------------------------------------------------------------------ *)
(** ** [plugin.py]: the custom search directories of [SourceImagesPlugin] *)

(** A [gr.Warning] or [gr.Info] notification: its text, and the value
    formatted after it when there is one. *)
Inductive toast : Type :=
| Warning (text : string) (arg : option pyval)
| Info (text : string) (arg : option pyval).

(** The plugin object as its methods see and change it: the host's
    [server_config] dict (shared with the host, [None] when it is [None]),
    [server_config_filename], the configurations the plugin has tried to
    write to that file, oldest first, and the notifications shown. *)
Record plugin : Type := {
  p_server_config : option dict;
  p_server_config_filename : pyval;
  p_write_attempts : list dict;
  p_toasts : list toast
}.

Definition set_config (self : plugin) (config : dict) : plugin := {|
  p_server_config := Some config;
  p_server_config_filename := p_server_config_filename self;
  p_write_attempts := p_write_attempts self;
  p_toasts := p_toasts self
|}.

Definition log_write (self : plugin) (config : dict) : plugin := {|
  p_server_config := p_server_config self;
  p_server_config_filename := p_server_config_filename self;
  p_write_attempts := p_write_attempts self ++ [config];
  p_toasts := p_toasts self
|}.

Definition show (self : plugin) (t : toast) : plugin := {|
  p_server_config := p_server_config self;
  p_server_config_filename := p_server_config_filename self;
  p_write_attempts := p_write_attempts self;
  p_toasts := p_toasts self ++ [t]
|}.

(** [self._get_custom_dirs()]. *)
Definition _get_custom_dirs (self : plugin) : list pyval :=
  match p_server_config self with
  | Some ((_ :: _) as config) =>
      match py_get_default config CONFIG_KEY_SEARCH_DIRS (VList []) with
      | VList dirs => dirs
      | _ => []
      end
  | _ => []
  end.

(** The list [_get_custom_dirs] returns is the very list stored in
    [server_config] when the key holds a list, and a fresh list otherwise;
    a change made to it in place ([append], [remove]) reaches
    [server_config] in the first case only. *)
Definition update_in_place (self : plugin) (dirs : list pyval) : plugin :=
  match p_server_config self with
  | Some ((_ :: _) as config) =>
      match dict_get config CONFIG_KEY_SEARCH_DIRS with
      | Some (VList _) =>
          set_config self (dict_set config CONFIG_KEY_SEARCH_DIRS (VList dirs))
      | _ => self
      end
  | _ => self
  end.

(** [self._get_custom_dirs_choices()] and [self.get_allowed_paths()]. *)
Definition _get_custom_dirs_choices (self : plugin) : list pyval :=
  _get_custom_dirs self.


(** [self._save_custom_dirs(dirs)]: the write to the file is attempted
    inside [try]/[except Exception], so it changes nothing else whether
    or not it succeeds. *)
Definition _save_custom_dirs (self : plugin) (dirs : list pyval) : plugin :=
  match p_server_config self with
  | Some ((_ :: _) as config) =>
      if truthy (p_server_config_filename self) then
        let config := dict_set config CONFIG_KEY_SEARCH_DIRS (VList dirs) in
        log_write (set_config self config) config
      else self
  | _ => self
  end.

(** [custom_dirs.remove(x)]: the first element equal to [x] goes. *)
Fixpoint list_remove (x : pyval) (l : list pyval) : list pyval :=
  match l with
  | [] => []
  | y :: l' => if py_eq y x then l' else y :: list_remove x l'
  end.

Section Handlers.

Variable E : env.

(** [str.strip()], [os.path.abspath] and [self._render_dirs_list()] are
    taken as they come: whatever they return, the handlers use it as
    below. *)
Variable strip : string -> string.
Variable abspath : string -> string.
Variable _render_dirs_list : plugin -> M string.

(** [self._add_directory(new_dir)]: the plugin afterwards, and the
    returned [(html, textbox, choices)] or the exception raised. *)
Definition _add_directory (self : plugin) (new_dir : pyval)
  : plugin * M (string * string * list pyval) :=
  let finish (self : plugin) (text : string) :=
    (self,
     html <- _render_dirs_list self ;;
     Ret (html, text, _get_custom_dirs_choices self)) in
  match (if truthy new_dir then
           match new_dir with
           | VStr s => Ret (strip s)
           | _ => Raise AttributeError
           end
         else Ret "") with
  | Raise e => (self, Raise e)
  | Ret new_dir =>
      if negb (truthy (VStr new_dir)) then
        finish (show self (Warning "Please enter a directory path." None)) ""
      else
        let new_dir := abspath new_dir in
        if negb (isdir (fs E) new_dir) then
          finish (show self (Warning "Directory does not exist: "
                               (Some (VStr new_dir)))) new_dir
        else
          let custom_dirs := _get_custom_dirs self in
          if py_in (VStr new_dir) custom_dirs then
            finish (show self (Info "Directory already in the list." None)) ""
          else
            let custom_dirs := custom_dirs ++ [VStr new_dir] in
            let self := update_in_place self custom_dirs in
            let self := _save_custom_dirs self custom_dirs in
            finish (show self (Info "Added directory: "
                                 (Some (VStr new_dir)))) ""
  end.

(** [self._remove_directory(dir_to_remove)]: the plugin afterwards, and
    the returned [(html, choices)] (the choices of the new dropdown, whose
    value is [None]) or the exception raised. *)
Definition _remove_directory (self : plugin) (dir_to_remove : pyval)
  : plugin * M (string * list pyval) :=
  let finish (self : plugin) :=
    (self,
     html <- _render_dirs_list self ;;
     Ret (html, _get_custom_dirs_choices self)) in
  if negb (truthy dir_to_remove) then
    finish (show self (Warning "Please select a directory to remove." None))
  else
    let custom_dirs := _get_custom_dirs self in
    if py_in dir_to_remove custom_dirs then
      let custom_dirs := list_remove dir_to_remove custom_dirs in
      let self := update_in_place self custom_dirs in
      let self := _save_custom_dirs self custom_dirs in
      finish (show self (Info "Removed directory: " (Some dir_to_remove)))
    else finish self.

End Handlers.

(** The surroundings of the resolver when the plugin instance is [self]. *)
Definition env_of (E : env) (self : plugin) : env := {|
  fs := fs E;
  utils_file := utils_file E;
  plugin_file := plugin_file E;
  server_config := p_server_config self
|}.

(* ------------------------------------------------------------------ *)
(** ** More vocabulary *)

(** The directories [find_file_by_name] goes through. *)
Definition effective_dirs (E : env) (search_dirs : option (list pyval))
  : list pyval :=
  match search_dirs with
  | None | Some [] => [VStr (default_outputs (utils_file E))]
  | Some l => l
  end.

(** No entry of [l] is equal to an entry before it or to one of [seen]. *)
Fixpoint distinct_from (seen l : list pyval) : bool :=
  match l with
  | [] => true
  | x :: l' => negb (py_in x seen) && distinct_from (seen ++ [x]) l'
  end.

Definition distinct_entries (l : list pyval) : bool := distinct_from [] l.

(** A value stored for a role: one [Q]-value, or a list of at least two. *)
Definition role_value (Q : pyval -> Prop) (v : pyval) : Prop :=
  Q v \/ exists l, v = VList l /\ (2 <= length l)%nat /\ Forall Q l.

(** A record as [resolve_and_build_info] builds it for the string [p]:
    [filename], [is_temp], and one more entry, [original_path] or
    [temp_path], whose value is not empty. *)
Definition info_record (v : pyval) : Prop :=
  exists p key val,
    v = VDict [("filename", VStr (basename p));
               ("is_temp", VBool (is_temp_plugin p));
               (key, val)] /\
    (key = "original_path" \/ key = "temp_path") /\
    truthy val = true.

(** A resolved path: a non-empty string (or, for a record whose [path]
    is a number, that file descriptor); never [None], a list or a dict. *)
Definition path_value (v : pyval) : Prop :=
  truthy v = true /\
  match v with VStr _ | VInt _ | VBool _ => True | _ => False end.

(** Modification time of a match, for statements about matches that all
    have one. *)
Definition mtime_of (E : env) (p : string) : Z :=
  match getmtime (fs E) p with Some t => t | None => 0%Z end.





Module Racing.
Import TreeFS Sample.

(** The sample tree as seen by a call during which
    [/out/y/pic.png] is removed after [glob] has listed it. *)
Definition racing_fs : filesystem := {|
  isdir := tree_isdir root;
  isfile := tree_isfile root;
  fd_isdir := fun _ => false;
  fd_isfile := fun _ => false;
  glob := tree_glob root;
  getmtime := fun p =>
    if String.eqb p "/out/y/pic.png" then None else tree_getmtime root p
|}.

Definition racing_env : env := {|
  fs := racing_fs;
  utils_file := "/app/plugins/source_images/utils.py";
  plugin_file := "/app/plugins/source_images/plugin.py";
  server_config := None
|}.

End Racing.

(** What [custom_dirs.append] or [custom_dirs.remove] followed by
    [self._save_custom_dirs(custom_dirs)] leaves behind, [dirs] being the
    list after the change. *)
Definition store (self : plugin) (dirs : list pyval) : plugin :=
  _save_custom_dirs (update_in_place self dirs) dirs.

(** The value of key [k] in the plugin's [server_config]. *)
Definition config_lookup (self : plugin) (k : string) : option pyval :=
  match p_server_config self with
  | Some c => dict_get c k
  | None => None
  end.

(** A change of the custom directories can be kept: there is a non-empty
    [server_config], and either a file name to save it under or a list
    already stored under the key (which is then changed in place). *)
Definition keeps_changes (self : plugin) : Prop :=
  exists c,
    p_server_config self = Some c /\ c <> [] /\
    (truthy (p_server_config_filename self) = true \/
     exists l, dict_get c CONFIG_KEY_SEARCH_DIRS = Some (VList l)).

Module Configured.
Import TreeFS Sample.

(** A host configuration over the sample tree. *)
Definition config : dict :=
  [("save_path", VStr "/out");
   ("image_save_path", VStr "/out");
   ("audio_save_path", VNone);
   ("source_images_search_dirs",
    VList [VStr "/b"; VStr "/nowhere"; VStr "/out"])].

Definition configured_env : env := {|
  fs := tree_fs root;
  utils_file := "/app/plugins/source_images/utils.py";
  plugin_file := "/app/plugins/source_images/plugin.py";
  server_config := Some config
|}.

Definition sample_plugin : plugin := {|
  p_server_config := Some config;
  p_server_config_filename := VStr "/app/wgp_config.json";
  p_write_attempts := [];
  p_toasts := []
|}.

(** A plugin whose host configuration is empty. *)
Definition bare_plugin : plugin := {|
  p_server_config := Some [];
  p_server_config_filename := VStr "/app/wgp_config.json";
  p_write_attempts := [];
  p_toasts := []
|}.

(** Stand-ins for [str.strip], [os.path.abspath] and the rendering, right
    on the inputs used with them below: strings without surrounding
    white space that are normalised absolute paths. *)
Definition no_strip (s : string) : string := s.
Definition no_abspath (s : string) : string := s.
Definition no_render (self : plugin) : M string := Ret "".

End Configured.



Module Subtree.
Import TreeFS.

(** The entries named [f] below a node, as paths relative to it, hidden
    directories included. *)
Fixpoint named_below (f : string) (n : node) : list string :=
  match n with
  | File _ => []
  | Dir _ es =>
      (fix go (es : list (string * node)) : list string :=
         match es with
         | [] => []
         | (x, c) :: es' =>
             (if String.eqb x f then [x] else [])
             ++ map (path_join x) (named_below f c) ++ go es'
         end) es
  end.

(** The entries of the subtree of directory [d] whose basename is [f]. *)
Definition subtree_named (root : node) (d f : string) : list string :=
  match lookup root d with
  | Some n => map (path_join d) (named_below f n)
  | None => []
  end.

(** A plugin installed under [/app] on the tree [root]. *)
Definition tree_env (root : node) : env := {|
  fs := tree_fs root;
  utils_file := "/app/plugins/source_images/utils.py";
  plugin_file := "/app/plugins/source_images/plugin.py";
  server_config := None
|}.

(** An output directory with a hidden sub-directory. *)
Definition hidden_root : node :=
  Dir 0 [
    ("out", Dir 0 [
       ("x", Dir 0 [("pic.png", File 10)]);
       (".y", Dir 0 [("pic.png", File 20)])])
  ].

End Subtree.

(* ================================================================== *)
(** * Properties *)

(* ------------------------------------------------------------------ *)
(** ** Basic facts *)

Lemma truthy_VStr (s : string) : truthy (VStr s) = true <-> s <> "".
Proof.
  simpl. destruct (String.eqb_spec s ""); simpl; split; congruence.
Qed.

Lemma bind_Ret_inv {A B : Type} (c : M A) (k : A -> M B) (b : B) :
  bind c k = Ret b -> exists a, c = Ret a /\ k a = Ret b.
Proof.
  destruct c as [a|e]; simpl; intros H; [eauto | discriminate].
Qed.

Lemma dict_get_set_same {A : Type} (d : list (string * A)) k v :
  dict_get (dict_set d k v) k = Some v.
Proof.
  induction d as [|[k' v'] d IH]; simpl.
  - now rewrite String.eqb_refl.
  - destruct (String.eqb k' k) eqn:Hk; simpl; rewrite Hk; auto.
Qed.

Lemma dict_get_set_other {A : Type} (d : list (string * A)) k k' v :
  k <> k' -> dict_get (dict_set d k v) k' = dict_get d k'.
Proof.
  intros Hne. induction d as [|[k0 v0] d IH]; simpl.
  - destruct (String.eqb_spec k k'); congruence.
  - destruct (String.eqb_spec k0 k); simpl.
    + subst k0. destruct (String.eqb_spec k k'); congruence.
    + destruct (String.eqb k0 k'); auto.
Qed.

Lemma dict_set_nonempty {A : Type} (d : list (string * A)) k v :
  dict_set d k v <> [].
Proof.
  destruct d as [|[k' v'] d]; simpl; [discriminate|].
  destruct (String.eqb k' k); discriminate.
Qed.

(* ------------------------------------------------------------------ *)
(** ** The directory loop of [find_file_by_name] *)

Section SearchLoop.

Variable E : env.

(** Directories that contribute nothing are passed over. *)
Lemma search_loop_skip (f : string) (recursive : bool) (pre : list string)
  (rest : list pyval) :
  Forall (no_match E f recursive) pre ->
  search_loop E (VStr f) recursive (map VStr pre ++ rest)
  = search_loop E (VStr f) recursive rest.
Proof.
  induction 1 as [|p pre Hp _ IH]; simpl; [reflexivity|].
  destruct Hp as [Hd | [Hf Hg]].
  - now rewrite Hd.
  - destruct (isdir (fs E) p); simpl; [|exact IH].
    rewrite Hf. destruct recursive; [|exact IH].
    now rewrite (Hg eq_refl).
Qed.

(** A directory holding the file directly ends the loop at once. *)
Lemma search_loop_direct (f : string) (recursive : bool) (d : string)
  (post : list pyval) :
  isdir (fs E) d = true ->
  isfile (fs E) (path_join d f) = true ->
  search_loop E (VStr f) recursive (VStr d :: post)
  = Ret (VStr (path_join d f)).
Proof.
  intros Hd Hf. simpl. now rewrite Hd, Hf.
Qed.

(** [max] over modification times: the result is a listed item whose time
    bounds the running maximum and every remaining item. *)
Lemma max_loop_spec (rest : list string) :
  forall (item : string) (val : Z),
    getmtime (fs E) item = Some val ->
    (forall m, In m rest -> exists t, getmtime (fs E) m = Some t) ->
    exists m t,
      max_loop E item val rest = Ret m /\
      In m (item :: rest) /\
      getmtime (fs E) m = Some t /\
      (val <= t)%Z /\
      (forall m' t', In m' rest -> getmtime (fs E) m' = Some t' -> (t' <= t)%Z).
Proof.
  induction rest as [|x rest IH]; intros item val Hitem Hall.
  - exists item, val. simpl. repeat split; auto; try lia; try (intros ? ? []).
  - destruct (Hall x (or_introl eq_refl)) as [tx Hx].
    assert (Hrest : forall m, In m rest -> exists t, getmtime (fs E) m = Some t)
      by (intros m Hm; apply Hall; now right).
    simpl. unfold os_path_getmtime. rewrite Hx. simpl.
    destruct (Z.gtb_spec tx val) as [Hgt | Hle].
    + destruct (IH x tx Hx Hrest) as (m & t & Hr & Hin & Hm & Hb & Hmax).
      exists m, t. split; [exact Hr|]. split; [now right|].
      split; [exact Hm|]. split; [lia|].
      intros m' t' [Heq | Hin'] Hm'; [|eauto].
      subst m'. rewrite Hx in Hm'. injection Hm' as <-. exact Hb.
    + destruct (IH item val Hitem Hrest) as (m & t & Hr & Hin & Hm & Hb & Hmax).
      exists m, t. split; [exact Hr|].
      split; [destruct Hin as [Heq | Hin]; [now left | right; now right]|].
      split; [exact Hm|]. split; [exact Hb|].
      intros m' t' [Heq | Hin'] Hm'; [|eauto].
      subst m'. rewrite Hx in Hm'. injection Hm' as <-. lia.
Qed.

Lemma max_by_mtime_spec (first : string) (rest : list string) :
  (forall m, In m (first :: rest) -> exists t, getmtime (fs E) m = Some t) ->
  exists m t,
    max_by_mtime E first rest = Ret m /\
    In m (first :: rest) /\
    getmtime (fs E) m = Some t /\
    (forall m' t', In m' (first :: rest) ->
                   getmtime (fs E) m' = Some t' -> (t' <= t)%Z).
Proof.
  intros Hall.
  destruct (Hall first (or_introl eq_refl)) as [t0 H0].
  destruct (max_loop_spec rest first t0 H0) as (m & t & Hr & Hin & Hm & Hb & Hmax).
  { intros m Hm. apply Hall. now right. }
  exists m, t. unfold max_by_mtime, os_path_getmtime. rewrite H0. simpl.
  repeat split; auto.
  intros m' t' [<- | Hin'] Hm'; [|eauto].
  rewrite H0 in Hm'. injection Hm' as <-. exact Hb.
Qed.

(** With two candidates of different times, [max] picks the later. *)
Lemma max_by_mtime_two (a b : string) (ta tb : Z) :
  getmtime (fs E) a = Some ta ->
  getmtime (fs E) b = Some tb ->
  max_by_mtime E a [b] = Ret (if (ta <? tb)%Z then b else a).
Proof.
  intros Ha Hb. unfold max_by_mtime, os_path_getmtime. rewrite Ha. simpl.
  unfold os_path_getmtime. rewrite Hb. simpl.
  rewrite Z.gtb_ltb. now destruct (ta <? tb)%Z.
Qed.

End SearchLoop.

(* ------------------------------------------------------------------ *)
(** ** [find_file_by_name] *)

Lemma find_file_by_name_listed (E : env) (f : string) (l : list pyval)
  (recursive : bool) :
  f <> "" -> l <> [] ->
  find_file_by_name E (VStr f) (Some l) recursive
  = search_loop E (VStr f) recursive l.
Proof.
  intros Hf Hl. unfold find_file_by_name.
  apply truthy_VStr in Hf. rewrite Hf. simpl.
  destruct l; [congruence | reflexivity].
Qed.

Lemma first_direct_dir_skip (E : env) (f : string) (recursive : bool)
  (pre rest : list string) :
  Forall (no_match E f recursive) pre ->
  first_direct_dir E f (pre ++ rest) = first_direct_dir E f rest.
Proof.
  unfold first_direct_dir.
  induction 1 as [|p pre Hp _ IH]; simpl; [reflexivity|].
  destruct Hp as [Hd | [Hf _]].
  - now rewrite Hd.
  - rewrite Hf, andb_false_r. exact IH.
Qed.

(** C1, as amended.  When [f] is a direct file child of the listed
    directory [d] and every directory listed before [d] contributes
    nothing (it does not exist, or it holds neither a direct file [f] nor,
    in a recursive search, any recursive match), [find_file_by_name]
    returns [d/f]; [d] is then the first listed directory holding [f]
    directly.  The answer is reached without scanning [d] recursively and
    without consulting what is listed after [d]: it is the same whatever
    [glob] and [getmtime] answer below [d] and whatever the later entries
    [post] are, even entries that are not strings. *)
Theorem C1_direct_match_first (E : env) (f : string) (pre : list string)
  (d : string) (post : list pyval) (recursive : bool) :
  f <> "" ->
  Forall (no_match E f recursive) pre ->
  isdir (fs E) d = true ->
  isfile (fs E) (path_join d f) = true ->
  find_file_by_name E (VStr f) (Some (map VStr pre ++ VStr d :: post)) recursive
  = Ret (VStr (path_join d f))
  /\ first_direct_dir E f (pre ++ [d]) = Some d.
Proof.
  intros Hf Hpre Hd Hfile. split.
  - rewrite find_file_by_name_listed; auto.
    + rewrite search_loop_skip by exact Hpre.
      now apply search_loop_direct.
    + destruct pre; discriminate.
  - rewrite (first_direct_dir_skip E f recursive) by exact Hpre.
    unfold first_direct_dir. simpl. now rewrite Hd, Hfile.
Qed.

(** C2, as amended.  In a recursive search that reaches directory [d] (the
    directories listed before it contribute nothing), where [d] holds no
    direct file [f] and the recursive pattern has the matches [ms], each
    with a modification time: the result is one of the matches and no
    match is more recent; with exactly two matches of different times it
    is the later-modified one. *)
Theorem C2_most_recent_match (E : env) (f : string) (pre : list string)
  (d : string) (post : list pyval) (ms : list string) :
  f <> "" ->
  Forall (no_match E f true) pre ->
  isdir (fs E) d = true ->
  isfile (fs E) (path_join d f) = false ->
  glob (fs E) (path_join (path_join d "**") f) = ms ->
  ms <> [] ->
  (forall m, In m ms -> exists t, getmtime (fs E) m = Some t) ->
  exists m t,
    find_file_by_name E (VStr f) (Some (map VStr pre ++ VStr d :: post)) true
    = Ret (VStr m) /\
    In m ms /\
    getmtime (fs E) m = Some t /\
    (forall m' t', In m' ms -> getmtime (fs E) m' = Some t' -> (t' <= t)%Z) /\
    (forall a b ta tb,
        ms = [a; b] ->
        getmtime (fs E) a = Some ta -> getmtime (fs E) b = Some tb ->
        ta <> tb ->
        m = if (ta <? tb)%Z then b else a).
Proof.
  intros Hf Hpre Hd Hfile Hglob Hne Hall.
  destruct ms as [|m0 ms']; [congruence|].
  destruct (max_by_mtime_spec E m0 ms' Hall) as (m & t & Hr & Hin & Hm & Hmax).
  exists m, t.
  assert (Hrun :
    find_file_by_name E (VStr f) (Some (map VStr pre ++ VStr d :: post)) true
    = Ret (VStr m)).
  { rewrite find_file_by_name_listed; auto.
    - rewrite search_loop_skip by exact Hpre.
      simpl. rewrite Hd, Hfile. simpl. rewrite Hglob, Hr. reflexivity.
    - destruct pre; discriminate. }
  repeat (split; [assumption|]).
  intros a b ta tb Hab Ha Hb _. injection Hab as -> ->.
  rewrite (max_by_mtime_two E a b ta tb Ha Hb) in Hr. congruence.
Qed.

(** C3, as amended.  An empty list of directories makes
    [find_file_by_name] search the default [outputs] directory, exactly
    as if that directory alone had been listed; the result is "not found"
    when that directory does not exist or contributes nothing. *)
Theorem C3_empty_list_uses_default (E : env) (filename : pyval)
  (recursive : bool) :
  let default := default_outputs (utils_file E) in
  find_file_by_name E filename (Some []) recursive
  = find_file_by_name E filename (Some [VStr default]) recursive
  /\ (isdir (fs E) default = false ->
      find_file_by_name E filename (Some []) recursive = Ret VNone)
  /\ (forall f, filename = VStr f -> no_match E f recursive default ->
      find_file_by_name E filename (Some []) recursive = Ret VNone).
Proof.
  intros default. split; [reflexivity|]. split.
  - intros Hd. unfold find_file_by_name.
    destruct (truthy filename); simpl; [|reflexivity].
    fold default. now rewrite Hd.
  - intros f -> Hno. unfold find_file_by_name.
    destruct (truthy (VStr f)); simpl negb; cbv iota; [|reflexivity].
    fold default.
    change [VStr default] with (map VStr [default] ++ []).
    rewrite search_loop_skip; [reflexivity|]. now constructor.
Qed.

(** C9.  An empty or absent filename makes [find_file_by_name] return
    [None], and an empty string, [None] or any value that is not a string
    makes [resolve_and_build_info] return [None]; these are ordinary
    results ([Ret]), not exceptions, whatever the other arguments and the
    surroundings are. *)
Theorem C9_empty_inputs_return_none (E : env) (search_dirs : option (list pyval))
  (recursive : bool) (v : pyval) :
  is_str v = false ->
  find_file_by_name E (VStr "") search_dirs recursive = Ret VNone /\
  find_file_by_name E VNone search_dirs recursive = Ret VNone /\
  resolve_and_build_info E (VStr "") = Ret VNone /\
  resolve_and_build_info E VNone = Ret VNone /\
  resolve_and_build_info E v = Ret VNone.
Proof.
  intros Hv. repeat (split; [reflexivity|]).
  destruct v; try reflexivity. discriminate.
Qed.

(* ------------------------------------------------------------------ *)
(** ** The role loops *)

Section RoleLoops.

Variable f : pyval -> M pyval.
Variable single_ok : pyval -> bool.

Lemma loop_items_mapM (l : list pyval) :
  forall kept,
    loop_items f l kept = rs <- mapM f l ;; Ret (kept ++ filter truthy rs).
Proof.
  induction l as [|x l IH]; intros kept; simpl.
  - now rewrite app_nil_r.
  - destruct (f x) as [r|e]; simpl; [|reflexivity].
    destruct (truthy r) eqn:Hr; rewrite IH; destruct (mapM f l); simpl;
      rewrite ?Hr, <- ?app_assoc; reflexivity.
Qed.

(** One turn of the outer loop adds the entry the role contributes. *)
Lemma loop_roles_step (k : string) (v : pyval) (items : list (string * pyval))
  (result : dict) :
  loop_roles f single_ok ((k, v) :: items) result
  = o <- spec_role_info f single_ok v ;;
    loop_roles f single_ok items
      (match o with Some i => dict_set result k i | None => result end).
Proof.
  destruct v; simpl;
    try (destruct (single_ok _); simpl; [|reflexivity];
         destruct (f _) as [r|e]; simpl; [|reflexivity];
         destruct (truthy r); reflexivity);
    try reflexivity.
  rewrite loop_items_mapM. destruct (mapM f l) as [rs|e]; simpl; [|reflexivity].
  destruct (filter truthy rs) as [|x [|y t]]; reflexivity.
Qed.

Lemma loop_roles_total (items : list (string * pyval)) :
  forall result,
    (forall k v, In (k, v) items ->
                 exists o, spec_role_info f single_ok v = Ret o) ->
    exists out, loop_roles f single_ok items result = Ret out.
Proof.
  induction items as [|[k v] items IH]; intros result Hall.
  - simpl. eauto.
  - rewrite loop_roles_step.
    destruct (Hall k v (or_introl eq_refl)) as [o ->]. simpl.
    apply IH. intros k' v' Hin. apply (Hall k' v'). now right.
Qed.

Lemma loop_roles_spec (items : list (string * pyval)) :
  forall result out,
    NoDup (map fst items) ->
    loop_roles f single_ok items result = Ret out ->
    (forall k v, In (k, v) items ->
       exists o, spec_role_info f single_ok v = Ret o /\
                 dict_get out k
                 = match o with Some i => Some i | None => dict_get result k end)
    /\ (forall k, ~ In k (map fst items) -> dict_get out k = dict_get result k).
Proof.
  induction items as [|[k v] items IH]; intros result out Hnd Hrun.
  - simpl in Hrun. injection Hrun as <-. split; [intros ? ? []|reflexivity].
  - rewrite loop_roles_step in Hrun.
    apply bind_Ret_inv in Hrun as (o & Ho & Hrun).
    inversion Hnd as [|? ? Hk Hnd']; subst.
    destruct (IH _ _ Hnd' Hrun) as [Hin Hout].
    assert (Hhead : dict_get out k
                    = match o with Some i => Some i | None => dict_get result k end).
    { rewrite (Hout k Hk). destruct o; [apply dict_get_set_same|reflexivity]. }
    split.
    + intros k' v' [Heq | Hin'].
      * injection Heq as <- <-. eauto.
      * destruct (Hin k' v' Hin') as (o' & Ho' & Hget).
        exists o'. split; [exact Ho'|]. rewrite Hget.
        destruct o'; [reflexivity|].
        destruct o; [|reflexivity].
        apply dict_get_set_other. intros ->. apply Hk.
        change k' with (fst (k', v')). now apply in_map.
    + intros k' Hnot. simpl in Hnot.
      rewrite (Hout k') by tauto.
      destruct o; [|reflexivity].
      apply dict_get_set_other. intros ->. tauto.
Qed.

End RoleLoops.

Lemma dict_get_all_none {A : Type} (d : list (string * A)) :
  (forall k, dict_get d k = None) -> d = [].
Proof.
  destruct d as [|[k v] d]; [reflexivity|].
  intros H. specialize (H k). simpl in H. rewrite String.eqb_refl in H.
  discriminate.
Qed.

Lemma dict_get_in {A : Type} (d : list (string * A)) k v :
  dict_get d k = Some v -> In k (map fst d).
Proof.
  induction d as [|[k' v'] d IH]; simpl; [discriminate|].
  destruct (String.eqb_spec k' k); [now left | right; auto].
Qed.

Lemma build_infos_loop (E : env) (l : list pyval) :
  forall kept,
    build_infos E l kept = loop_items (resolve_and_build_info E) l kept.
Proof.
  induction l as [|x l IH]; intros kept; cbn [build_infos loop_items];
    [reflexivity|].
  destruct (resolve_and_build_info E x) as [r|e]; cbn [bind]; [|reflexivity].
  destruct (truthy r); apply IH.
Qed.

Lemma build_roles_loop (E : env) (items : list (string * pyval)) :
  forall result,
    build_roles E items result
    = loop_roles (resolve_and_build_info E) is_str items result.
Proof.
  induction items as [|[k v] items IH]; intros result; [reflexivity|].
  destruct v; cbn [build_roles loop_roles is_str]; try apply IH.
  - destruct (resolve_and_build_info E (VStr s)) as [r|e]; cbn [bind];
      [|reflexivity].
    destruct (truthy r); apply IH.
  - rewrite build_infos_loop.
    destruct (loop_items _ l []) as [kept|e]; cbn [bind]; [|reflexivity].
    destruct kept as [|x [|y t]]; apply IH.
Qed.

Lemma resolve_items_loop (E : env) (sd : option (list pyval)) (l : list pyval) :
  forall kept,
    resolve_items E sd l kept
    = loop_items (fun v => resolve_source_image E v sd) l kept.
Proof.
  induction l as [|x l IH]; intros kept; cbn [resolve_items loop_items];
    [reflexivity|].
  destruct (resolve_source_image E x sd) as [r|e]; cbn [bind]; [|reflexivity].
  destruct (truthy r); apply IH.
Qed.

Lemma resolve_roles_loop (E : env) (sd : option (list pyval))
  (items : list (string * pyval)) :
  forall result,
    resolve_roles E sd items result
    = loop_roles (fun v => resolve_source_image E v sd) (fun _ => true)
        items result.
Proof.
  induction items as [|[k v] items IH]; intros result; [reflexivity|].
  destruct v; cbn [resolve_roles loop_roles]; try apply IH;
    try (destruct (resolve_source_image E _ sd) as [r|e]; cbn [bind];
         [|reflexivity]; destruct (truthy r); apply IH).
  rewrite resolve_items_loop.
  destruct (loop_items _ l []) as [kept|e]; cbn [bind]; [|reflexivity].
  destruct kept as [|x [|y t]]; apply IH.
Qed.

(* ------------------------------------------------------------------ *)
(** ** [resolve_source_image] on a record *)

Lemma find_file_by_name_falsy (E : env) (filename : pyval)
  (sd : option (list pyval)) (recursive : bool) :
  truthy filename = false ->
  find_file_by_name E filename sd recursive = Ret VNone.
Proof.
  intros H. unfold find_file_by_name. now rewrite H.
Qed.

(** C6.  For a record whose [is_temp] is true: when the search for the
    record's [filename] finds a path, that path is the result; when the
    search finds nothing and the record's [path] is an existing file, the
    result is that [path]; when the search finds nothing and there is no
    [path] or it is not an existing file, the result is [None]. *)
Theorem C6_temp_record (E : env) (d : dict) (sd : option (list pyval)) :
  truthy (py_get_default d "is_temp" (VBool false)) = true ->
  (forall found,
      find_file_by_name E (py_get d "filename") sd true = Ret found ->
      truthy found = true ->
      resolve_source_image E (VDict d) sd = Ret found)
  /\ (find_file_by_name E (py_get d "filename") sd true = Ret VNone ->
      truthy (py_get d "path") = true ->
      os_path_isfile E (py_get d "path") = Ret true ->
      resolve_source_image E (VDict d) sd = Ret (py_get d "path"))
  /\ (find_file_by_name E (py_get d "filename") sd true = Ret VNone ->
      truthy (py_get d "path") = false \/
      os_path_isfile E (py_get d "path") = Ret false ->
      resolve_source_image E (VDict d) sd = Ret VNone).
Proof.
  intros Htemp.
  assert (Hd : truthy (VDict d) = true).
  { destruct d; [discriminate Htemp | reflexivity]. }
  unfold resolve_source_image. rewrite Hd, Htemp. cbn [negb andb bind].
  split; [|split].
  - intros found Hfind Hfound.
    destruct (truthy (py_get d "filename")) eqn:Hfn.
    + rewrite Hfind. cbn [bind andb]. now rewrite Hfound.
    + rewrite find_file_by_name_falsy in Hfind by exact Hfn.
      injection Hfind as <-. discriminate.
  - intros Hfind Hpath Hfile.
    destruct (truthy (py_get d "filename")).
    + rewrite Hfind. cbn [bind andb truthy]. now rewrite Hpath, Hfile.
    + cbn [bind andb]. now rewrite Hpath, Hfile.
  - intros Hfind Hpath.
    assert (Hlast :
      (last <- (if truthy (py_get d "path")
                then os_path_isfile E (py_get d "path") else Ret false) ;;
       if last then Ret (py_get d "path") else Ret VNone) = Ret VNone).
    { destruct Hpath as [-> | Hfile]; [reflexivity|].
      rewrite Hfile. now destruct (truthy (py_get d "path")). }
    destruct (truthy (py_get d "filename")).
    + rewrite Hfind. cbn [bind andb truthy]. exact Hlast.
    + cbn [bind andb]. exact Hlast.
Qed.

(* ------------------------------------------------------------------ *)
(** ** [resolve_and_build_info] *)

(** C7.  Every record [resolve_and_build_info] produces comes from a
    string [p], carries [filename] (the basename of [p]) and [is_temp],
    and holds exactly one of [original_path] and [temp_path]:
    [original_path] is [p] itself when [p] is not temporary and the found
    path when [p] is temporary and the search succeeds; [temp_path] is [p]
    when [p] is temporary and the search finds nothing. *)
Theorem C7_record_shape (E : env) (path r : pyval) :
  resolve_and_build_info E path = Ret r ->
  r <> VNone ->
  exists p info,
    path = VStr p /\ r = VDict info /\
    dict_get info "filename" = Some (VStr (basename p)) /\
    dict_get info "is_temp" = Some (VBool (is_temp_plugin p)) /\
    ((is_temp_plugin p = false /\
      dict_get info "original_path" = Some (VStr p) /\
      dict_get info "temp_path" = None)
     \/
     (is_temp_plugin p = true /\
      exists dirs found,
        get_configured_output_dirs E = Ret dirs /\
        find_file_by_name E (VStr (basename p)) (Some dirs) true = Ret found /\
        ((truthy found = true /\
          dict_get info "original_path" = Some found /\
          dict_get info "temp_path" = None)
         \/
         (truthy found = false /\
          dict_get info "original_path" = None /\
          dict_get info "temp_path" = Some (VStr p))))).
Proof.
  intros Hrun Hr.
  destruct path as [| | |p| |]; try (injection Hrun as <-; congruence).
  exists p. unfold resolve_and_build_info in Hrun.
  destruct (truthy (VStr p)); cbn [negb] in Hrun;
    [|injection Hrun as <-; congruence].
  destruct (is_temp_plugin p) eqn:Htemp.
  - apply bind_Ret_inv in Hrun as (dirs & Hdirs & Hrun).
    apply bind_Ret_inv in Hrun as (found & Hfind & Hrun).
    destruct (truthy found) eqn:Hfound; injection Hrun as <-;
      eexists; (split; [reflexivity|]); (split; [reflexivity|]);
      (split; [reflexivity|]); (split; [reflexivity|]);
      right; (split; [reflexivity|]); exists dirs, found;
      (split; [exact Hdirs|]); (split; [exact Hfind|]).
    + left. repeat split; auto.
    + right. repeat split; auto.
  - injection Hrun as <-.
    eexists. repeat (split; [reflexivity|]). left. repeat split.
Qed.

(* ------------------------------------------------------------------ *)
(** ** [process_source_paths] *)

(** C8.  For a role map [d] (a dict, so without repeated keys):
    [process_source_paths] returns exactly when the processing of every
    role returns, and then
    - the result is never an empty mapping;
    - a role whose value is a list has [resolve_and_build_info] applied to
      each element, the [None] results dropped, and holds nothing when
      nothing is left, the bare record when one record is left, the list
      of records otherwise;
    - every role holds what its value contributes, so a role producing no
      info is absent, and no other key is present;
    - the result is [None] exactly when no role contributes anything. *)
Theorem C8_process_source_paths (E : env) (d : dict) :
  NoDup (map fst d) ->
  ((forall k v, In (k, v) d ->
      exists o, spec_role_info (resolve_and_build_info E) is_str v = Ret o)
   <-> exists r, process_source_paths E (VDict d) = Ret r)
  /\
  forall r, process_source_paths E (VDict d) = Ret r ->
    r <> VDict [] /\
    (forall k l, In (k, VList l) d ->
       exists rs, mapM (resolve_and_build_info E) l = Ret rs /\
         match filter truthy rs with
         | [] => role_lookup r k = None
         | [single] => role_lookup r k = Some single
         | infos => role_lookup r k = Some (VList infos)
         end) /\
    (forall k v, In (k, v) d ->
       exists o, spec_role_info (resolve_and_build_info E) is_str v = Ret o /\
                 role_lookup r k = o) /\
    (forall k, role_lookup r k <> None -> In k (map fst d)) /\
    ((forall k v, In (k, v) d ->
        spec_role_info (resolve_and_build_info E) is_str v = Ret None)
     <-> r = VNone).
Proof.
  intros Hnd.
  assert (Hshape : forall r, process_source_paths E (VDict d) = Ret r ->
            exists out, build_roles E d [] = Ret out /\
                        r = match out with [] => VNone | _ => VDict out end).
  { intros r Hrun. unfold process_source_paths in Hrun.
    destruct d as [|kv d']; [injection Hrun as <-; exists []; auto|].
    cbn [truthy negb] in Hrun.
    apply bind_Ret_inv in Hrun as (out & Hout & Hrun).
    exists out. split; [exact Hout|].
    destruct out; injection Hrun as <-; reflexivity. }
  assert (Hroles : forall r, process_source_paths E (VDict d) = Ret r ->
            (forall k v, In (k, v) d ->
               exists o, spec_role_info (resolve_and_build_info E) is_str v = Ret o
                         /\ role_lookup r k = o) /\
            (forall k, ~ In k (map fst d) -> role_lookup r k = None) /\
            r <> VDict []).
  { intros r Hrun. destruct (Hshape r Hrun) as (out & Hout & ->).
    rewrite build_roles_loop in Hout.
    destruct (loop_roles_spec _ _ d [] out Hnd Hout) as [Hin Hnot].
    assert (Hlook : forall k,
              role_lookup (match out with [] => VNone | _ => VDict out end) k
              = dict_get out k) by (intros k; destruct out; reflexivity).
    split; [|split].
    - intros k v Hkv. destruct (Hin k v Hkv) as (o & Ho & Hget).
      exists o. split; [exact Ho|]. rewrite Hlook, Hget. now destruct o.
    - intros k Hk. rewrite Hlook. now rewrite (Hnot k Hk).
    - destruct out; discriminate. }
  split.
  - split.
    + intros Hall.
      destruct (loop_roles_total (resolve_and_build_info E) is_str d [] Hall)
        as [out Hout].
      rewrite <- build_roles_loop in Hout.
      unfold process_source_paths. destruct d as [|kv d']; [simpl; eauto|].
      cbn [truthy negb]. rewrite Hout. cbn [bind]. destruct out; eauto.
    + intros [r Hrun] k v Hkv.
      destruct (Hroles r Hrun) as (Hin & _).
      destruct (Hin k v Hkv) as (o & Ho & _). eauto.
  - intros r Hrun. destruct (Hroles r Hrun) as (Hin & Hnot & Hne).
    split; [exact Hne|]. split; [|split; [exact Hin|split]].
    + intros k l Hkl. destruct (Hin k (VList l) Hkl) as (o & Ho & Hget).
      cbn [spec_role_info] in Ho.
      apply bind_Ret_inv in Ho as (rs & Hrs & Ho). injection Ho as <-.
      exists rs. split; [exact Hrs|].
      destruct (filter truthy rs) as [|x [|y t]]; exact Hget.
    + intros k Hk. destruct (in_dec string_dec k (map fst d)) as [|Hn]; auto.
      now rewrite (Hnot k Hn) in Hk.
    + split.
      * intros Hall.
        destruct (Hshape r Hrun) as (out & _ & ->).
        assert (Hempty : out = []).
        { apply dict_get_all_none. intros k.
          destruct (dict_get out k) eqn:Hget; [exfalso|reflexivity].
          assert (Hlk : role_lookup (match out with [] => VNone | _ => VDict out end) k
                        = Some p) by (destruct out; [discriminate|exact Hget]).
          destruct (in_dec string_dec k (map fst d)) as [Hk|Hn].
          - apply in_map_iff in Hk as ([k' v] & <- & Hkv).
            destruct (Hin k' v Hkv) as (o & Ho & Hget').
            rewrite (Hall k' v Hkv) in Ho. injection Ho as <-.
            simpl in Hlk. congruence.
          - rewrite (Hnot k Hn) in Hlk. discriminate. }
        now rewrite Hempty.
      * intros -> k v Hkv. destruct (Hin k v Hkv) as (o & Ho & Hget).
        simpl in Hget. now subst o.
Qed.

(* ------------------------------------------------------------------ *)
(** ** [get_source_images_from_metadata] *)

(** C10.  Without a [source_images] entry the result is the empty
    mapping [{}], not [None].  With an entry [si] (a dict, so without
    repeated keys) the call returns exactly when the resolution of every
    role returns, and then the result is a mapping in which a role whose
    value is a list has [resolve_source_image] applied to each element
    and the unresolved ones dropped: the role is absent when nothing
    resolves, holds the bare path when exactly one path resolves, and the
    list of paths otherwise.  Every role holds what its value contributes
    (a single value that does not resolve leaves its role absent), and no
    other key is present. *)
Theorem C10_metadata_extraction (E : env) (metadata si : dict)
  (sd : option (list pyval)) :
  dict_get metadata "source_images" = Some (VDict si) ->
  NoDup (map fst si) ->
  (forall md, dict_get md "source_images" = None ->
     get_source_images_from_metadata E md sd = Ret (VDict []))
  /\
  ((forall k v, In (k, v) si ->
      exists o, spec_role_info (fun x => resolve_source_image E x sd)
                  (fun _ => true) v = Ret o)
   <-> exists r, get_source_images_from_metadata E metadata sd = Ret r)
  /\
  forall r, get_source_images_from_metadata E metadata sd = Ret r ->
    exists out, r = VDict out /\
      (forall k l, In (k, VList l) si ->
         exists rs,
           mapM (fun x => resolve_source_image E x sd) l = Ret rs /\
           match filter truthy rs with
           | [] => dict_get out k = None
           | [single] => dict_get out k = Some single
           | paths => dict_get out k = Some (VList paths)
           end) /\
      (forall k v, In (k, v) si ->
         exists o, spec_role_info (fun x => resolve_source_image E x sd)
                     (fun _ => true) v = Ret o /\
                   dict_get out k = o) /\
      (forall k, dict_get out k <> None -> In k (map fst si)).
Proof.
  intros Hsi Hnd. split; [|split].
  - intros md Hmd. unfold get_source_images_from_metadata, py_get_default.
    now rewrite Hmd.
  - unfold get_source_images_from_metadata, py_get_default. rewrite Hsi.
    split.
    + intros Hall.
      destruct (loop_roles_total _ _ si [] Hall) as [out Hout].
      rewrite <- resolve_roles_loop in Hout.
      destruct si as [|kv si']; [simpl; eauto|].
      cbn [truthy negb]. rewrite Hout. cbn [bind]. eauto.
    + intros [r Hrun] k v Hkv.
      destruct si as [|kv si']; [destruct Hkv|].
      cbn [truthy negb] in Hrun.
      apply bind_Ret_inv in Hrun as (out & Hout & _).
      rewrite resolve_roles_loop in Hout.
      destruct (loop_roles_spec _ _ _ [] out Hnd Hout) as [Hin _].
      destruct (Hin k v Hkv) as (o & Ho & _). eauto.
  - intros r Hrun.
    unfold get_source_images_from_metadata, py_get_default in Hrun.
    rewrite Hsi in Hrun.
    destruct si as [|kv si'].
    + injection Hrun as <-. exists []. split; [reflexivity|].
      split; [intros ? ? []|]. split; [intros ? ? []|].
      intros k Hk. now elim Hk.
    + cbn [truthy negb] in Hrun.
      apply bind_Ret_inv in Hrun as (out & Hout & Hrun). injection Hrun as <-.
      exists out. split; [reflexivity|].
      rewrite resolve_roles_loop in Hout.
      destruct (loop_roles_spec _ _ _ [] out Hnd Hout) as [Hin Hnot].
      assert (Hroles : forall k v, In (k, v) (kv :: si') ->
                exists o, spec_role_info (fun x => resolve_source_image E x sd)
                            (fun _ => true) v = Ret o /\
                          dict_get out k = o).
      { intros k v Hkv. destruct (Hin k v Hkv) as (o & Ho & Hget).
        exists o. split; [exact Ho|]. rewrite Hget. now destruct o. }
      split; [|split; [exact Hroles|]].
      * intros k l Hkl. destruct (Hroles k (VList l) Hkl) as (o & Ho & Hget).
        cbn [spec_role_info] in Ho.
        apply bind_Ret_inv in Ho as (rs & Hrs & Ho). injection Ho as <-.
        exists rs. split; [exact Hrs|].
        destruct (filter truthy rs) as [|x [|y t]]; exact Hget.
      * intros k Hk.
        destruct (in_dec string_dec k (map fst (kv :: si'))) as [|Hn]; auto.
        now rewrite (Hnot k Hn) in Hk.
Qed.

(* ------------------------------------------------------------------ *)
(** ** The sample installation: evaluations *)

Import Sample.

(** C1, as stated, fails: [/b] is the first listed directory holding
    [img.png] directly, yet the recursive match below the earlier
    directory [/a] is returned. *)
Lemma C1_counterexample :
  first_direct_dir sample_env "img.png" ["/a"; "/b"] = Some "/b" /\
  find_file_by_name sample_env (VStr "img.png")
    (Some [VStr "/a"; VStr "/b"]) true = Ret (VStr "/a/sub/img.png") /\
  ~ (forall (E : env) (f : string) (dirs : list string) (d : string)
            (recursive : bool),
        f <> "" ->
        first_direct_dir E f dirs = Some d ->
        find_file_by_name E (VStr f) (Some (map VStr dirs)) recursive
        = Ret (VStr (path_join d f))).
Proof.
  split; [reflexivity|]. split; [reflexivity|].
  intros H.
  specialize (H sample_env "img.png" ["/a"; "/b"] "/b" true).
  assert (Hne : "img.png" <> "") by discriminate.
  specialize (H Hne eq_refl). vm_compute in H. discriminate H.
Qed.

Lemma C1_direct_match_first_witness :
  find_file_by_name sample_env (VStr "img.png")
    (Some (map VStr ["/nowhere"; "/out"] ++ VStr "/b" :: [VList []])) true
  = Ret (VStr (path_join "/b" "img.png"))
  /\ first_direct_dir sample_env "img.png" (["/nowhere"; "/out"] ++ ["/b"])
     = Some "/b".
Proof.
  apply (C1_direct_match_first sample_env "img.png" ["/nowhere"; "/out"] "/b"
           [VList []] true).
  - discriminate.
  - constructor; [left; reflexivity|].
    constructor; [|constructor].
    right. split; [reflexivity | intros _; reflexivity].
  - reflexivity.
  - reflexivity.
Defined.

Lemma C2_most_recent_match_witness :
  find_file_by_name sample_env (VStr "pic.png")
    (Some (map VStr ["/nowhere"] ++ VStr "/out" :: [])) true
  = Ret (VStr "/out/y/pic.png").
Proof.
  destruct (C2_most_recent_match sample_env "pic.png" ["/nowhere"] "/out" []
              ["/out/x/pic.png"; "/out/y/pic.png"])
    as (m & t & Hr & _ & _ & _ & Htwo).
  - discriminate.
  - constructor; [left; reflexivity | constructor].
  - reflexivity.
  - reflexivity.
  - reflexivity.
  - discriminate.
  - intros m [<- | [<- | []]]; eexists; reflexivity.
  - rewrite Hr.
    rewrite (Htwo "/out/x/pic.png" "/out/y/pic.png" 10%Z 20%Z
               eq_refl eq_refl eq_refl).
    + reflexivity.
    + discriminate.
Defined.

(** C3, as stated, fails: with an empty list the default [outputs]
    directory is searched, and the file is found there. *)
Lemma C3_counterexample :
  find_file_by_name sample_env (VStr "img.png") (Some []) true
  = Ret (VStr "/app/outputs/img.png") /\
  ~ (forall (E : env) (filename : pyval) (recursive : bool),
        find_file_by_name E filename (Some []) recursive = Ret VNone).
Proof.
  split; [reflexivity|].
  intros H. specialize (H sample_env (VStr "img.png") true).
  vm_compute in H. discriminate H.
Qed.

Lemma C3_empty_list_uses_default_witness :
  isdir (fs bare_env) (default_outputs (utils_file bare_env)) = false /\
  find_file_by_name bare_env (VStr "img.png") (Some []) true = Ret VNone.
Proof.
  split; [reflexivity|].
  apply (C3_empty_list_uses_default bare_env (VStr "img.png") true).
  reflexivity.
Defined.

(** C4 fails on the code: a path in an [AppData] upload area that has no
    [temp] in it is temporary for [resolve_and_build_info] and not for
    [resolve_source_image], which therefore returns the upload itself
    although the original is in the output directory.  The converse
    inclusion holds. *)
Theorem C4_classifications_differ :
  is_temp_plugin "/home/u/AppData/gradio/img.png" = true /\
  is_temp_utils "/home/u/AppData/gradio/img.png" = false /\
  resolve_and_build_info sample_env (VStr "/home/u/AppData/gradio/img.png")
  = Ret (VDict [("filename", VStr "img.png"); ("is_temp", VBool true);
                ("original_path", VStr "/app/outputs/img.png")]) /\
  resolve_source_image sample_env (VStr "/home/u/AppData/gradio/img.png") None
  = Ret (VStr "/home/u/AppData/gradio/img.png") /\
  (forall s, is_temp_utils s = true -> is_temp_plugin s = true).
Proof.
  repeat (split; [reflexivity|]).
  intros s. unfold is_temp_utils, is_temp_plugin.
  destruct (contains "gradio" (lower s)); simpl; [|discriminate].
  now intros ->.
Qed.

(** C5 fails on the code: the recursive search returns a directory named
    like the file. *)
Theorem C5_recursive_match_is_directory :
  find_file_by_name sample_env (VStr "dir.png") (Some [VStr "/out"]) true
  = Ret (VStr "/out/z/dir.png") /\
  isfile (fs sample_env) "/out/z/dir.png" = false /\
  isdir (fs sample_env) "/out/z/dir.png" = true.
Proof.
  repeat split; reflexivity.
Qed.

Lemma C6_temp_record_witness :
  truthy (py_get_default sample_record "is_temp" (VBool false)) = true /\
  resolve_source_image sample_env (VDict sample_record) None
  = Ret (VStr "/Temp/gradio/abc/photo.png").
Proof.
  split; [reflexivity|].
  apply (C6_temp_record sample_env sample_record None); reflexivity.
Defined.

Lemma C7_record_shape_witness :
  exists p info,
    VStr "/Temp/gradio/abc/photo.png" = VStr p /\
    VDict [("filename", VStr "photo.png"); ("is_temp", VBool true);
           ("temp_path", VStr "/Temp/gradio/abc/photo.png")] = VDict info /\
    dict_get info "filename" = Some (VStr (basename p)) /\
    dict_get info "is_temp" = Some (VBool (is_temp_plugin p)).
Proof.
  destruct (C7_record_shape sample_env (VStr "/Temp/gradio/abc/photo.png")
              (VDict [("filename", VStr "photo.png"); ("is_temp", VBool true);
                      ("temp_path", VStr "/Temp/gradio/abc/photo.png")]))
    as (p & info & Hp & Hr & Hf & Ht & _).
  - reflexivity.
  - discriminate.
  - exists p, info. repeat split; assumption.
Defined.

Lemma sample_roles_nodup : NoDup (map fst sample_roles).
Proof.
  repeat constructor; simpl; intuition discriminate.
Defined.

Lemma C8_process_source_paths_witness :
  NoDup (map fst sample_roles) /\
  exists r,
    process_source_paths sample_env (VDict sample_roles) = Ret r /\
    r <> VDict [] /\
    role_lookup r "image_guide" = None /\
    role_lookup r "image_mask"
    = Some (VDict [("filename", VStr "a.png"); ("is_temp", VBool false);
                   ("original_path", VStr "/real/a.png")]).
Proof.
  split; [exact sample_roles_nodup|].
  eexists. split; [reflexivity|].
  destruct (C8_process_source_paths sample_env sample_roles sample_roles_nodup)
    as [_ Hres].
  destruct (Hres _ eq_refl) as (Hne & _ & _ & _ & _).
  split; [exact Hne|]. split; reflexivity.
Defined.

Lemma C9_empty_inputs_return_none_witness :
  is_str (VInt 5) = false /\
  resolve_and_build_info sample_env (VInt 5) = Ret VNone.
Proof.
  split; [reflexivity|].
  apply (C9_empty_inputs_return_none sample_env None true (VInt 5)).
  reflexivity.
Defined.

Lemma sample_images_nodup : NoDup (map fst sample_images).
Proof.
  repeat constructor; simpl; intuition discriminate.
Defined.

Lemma C10_metadata_extraction_witness :
  get_source_images_from_metadata sample_env [("prompt", VStr "a cat")] None
  = Ret (VDict []) /\
  exists out,
    get_source_images_from_metadata sample_env sample_metadata None
    = Ret (VDict out) /\
    dict_get out "image_refs" = Some (VStr "/real/a.png") /\
    dict_get out "image_mask" = None.
Proof.
  destruct (C10_metadata_extraction sample_env sample_metadata sample_images
              None eq_refl sample_images_nodup) as (Hnone & _ & Hres).
  split; [apply Hnone; reflexivity|].
  destruct (Hres _ eq_refl) as (out & Hout & _).
  exists out. injection Hout as <-. repeat split; reflexivity.
Defined.

(* ================================================================== *)
(** * Further properties of the code *)

(* ------------------------------------------------------------------ *)
(** ** [find_file_by_name]: what it returns and when it raises *)

Lemma find_file_by_name_effective (E : env) (filename : pyval)
  (sd : option (list pyval)) (recursive : bool) :
  truthy filename = true ->
  find_file_by_name E filename sd recursive
  = search_loop E filename recursive (effective_dirs E sd).
Proof.
  intros H. unfold find_file_by_name, effective_dirs. now rewrite H.
Qed.

(** X1.  When none of the directories gone through contributes anything, the
    result is [None]; this covers the default directory taken for an
    absent or empty list. *)
Theorem find_none_when_no_dir_matches (E : env) (f : string)
  (sd : option (list pyval)) (dirs : list string) (recursive : bool) :
  effective_dirs E sd = map VStr dirs ->
  Forall (no_match E f recursive) dirs ->
  find_file_by_name E (VStr f) sd recursive = Ret VNone.
Proof.
  intros Heff Hall.
  destruct (truthy (VStr f)) eqn:Hf.
  - rewrite find_file_by_name_effective by exact Hf.
    rewrite Heff, <- (app_nil_r (map VStr dirs)).
    now rewrite search_loop_skip.
  - now apply find_file_by_name_falsy.
Qed.

Lemma find_none_when_no_dir_matches_witness :
  find_file_by_name sample_env (VStr "nothing.png")
    (Some [VStr "/nowhere"; VStr "/out"; VStr "/b"]) true = Ret VNone.
Proof.
  apply (find_none_when_no_dir_matches sample_env "nothing.png" _
           ["/nowhere"; "/out"; "/b"] true).
  - reflexivity.
  - constructor; [left; reflexivity|].
    constructor; [right; split; [reflexivity | intros _; reflexivity]|].
    constructor; [right; split; [reflexivity | intros _; reflexivity]|].
    constructor.
Defined.

Lemma max_loop_member (E : env) (rest : list string) :
  forall item val m,
    getmtime (fs E) item = Some val ->
    max_loop E item val rest = Ret m ->
    In m (item :: rest) /\ getmtime (fs E) m <> None.
Proof.
  induction rest as [|x rest IH]; intros item val m Hitem Hrun.
  - simpl in Hrun. injection Hrun as <-. split; [now left | congruence].
  - simpl in Hrun. unfold os_path_getmtime in Hrun.
    destruct (getmtime (fs E) x) as [tx|] eqn:Hx; [|discriminate].
    simpl in Hrun. destruct (tx >? val)%Z.
    + destruct (IH x tx m Hx Hrun) as [Hin Hm].
      split; [right; exact Hin | exact Hm].
    + destruct (IH item val m Hitem Hrun) as [[Heq | Hin] Hm].
      * split; [now left | exact Hm].
      * split; [right; now right | exact Hm].
Qed.

Lemma search_loop_sound (E : env) (f : string) (recursive : bool)
  (dirs : list pyval) :
  forall r,
    search_loop E (VStr f) recursive dirs = Ret r ->
    r = VNone \/
    exists d p,
      r = VStr p /\ In (VStr d) dirs /\ isdir (fs E) d = true /\
      ((p = path_join d f /\ isfile (fs E) p = true) \/
       (recursive = true /\
        isfile (fs E) (path_join d f) = false /\
        In p (glob (fs E) (path_join (path_join d "**") f)) /\
        getmtime (fs E) p <> None)).
Proof.
  induction dirs as [|sdir dirs IH]; intros r Hrun.
  - simpl in Hrun. injection Hrun as <-. now left.
  - assert (Hnext : search_loop E (VStr f) recursive dirs = Ret r ->
                    r = VNone \/
                    exists d p,
                      r = VStr p /\ In (VStr d) (sdir :: dirs) /\
                      isdir (fs E) d = true /\
                      ((p = path_join d f /\ isfile (fs E) p = true) \/
                       (recursive = true /\
                        isfile (fs E) (path_join d f) = false /\
                        In p (glob (fs E) (path_join (path_join d "**") f)) /\
                        getmtime (fs E) p <> None))).
    { intros H. destruct (IH r H) as [-> | (d & p & -> & Hin & Hrest)];
        [now left | right; exists d, p; split; [reflexivity|]; split;
                    [now right | exact Hrest]]. }
    cbn [search_loop] in Hrun.
    apply bind_Ret_inv in Hrun as (isd & Hisd & Hrun).
    destruct isd; cbn [negb] in Hrun; [|apply Hnext; exact Hrun].
    apply bind_Ret_inv in Hrun as (direct & Hjoin & Hrun).
    destruct sdir as [| | |d| |]; try discriminate Hjoin.
    simpl in Hisd, Hjoin. injection Hisd as Hisd. injection Hjoin as <-.
    destruct (isfile (fs E) (path_join d f)) eqn:Hfile.
    + injection Hrun as <-. right. exists d, (path_join d f).
      split; [reflexivity|]. split; [now left|]. split; [exact Hisd|].
      left. split; [reflexivity | exact Hfile].
    + destruct recursive; [|apply Hnext; exact Hrun].
      cbn [os_path_join bind] in Hrun.
      destruct (glob (fs E) (path_join (path_join d "**") f))
        as [|m ms] eqn:Hglob; [apply Hnext; exact Hrun|].
      apply bind_Ret_inv in Hrun as (best & Hmax & Hrun).
      injection Hrun as <-.
      unfold max_by_mtime, os_path_getmtime in Hmax.
      destruct (getmtime (fs E) m) as [t|] eqn:Hm; [|discriminate].
      cbn [bind] in Hmax.
      destruct (max_loop_member E ms m t best Hm Hmax) as [Hin Hbest].
      right. exists d, best. split; [reflexivity|]. split; [now left|].
      split; [exact Hisd|]. right.
      split; [reflexivity|]. split; [exact Hfile|].
      rewrite Hglob. split; [exact Hin | exact Hbest].
Qed.

(** X2.  Whatever [find_file_by_name] returns for a string is [None] or a
    path taken from one of the directories it goes through, which exists:
    the direct file [d/f], or, in a recursive search only and when [d/f]
    is no file, one of the recursive pattern's matches under [d]. *)
Theorem find_result_comes_from_a_listed_dir (E : env) (f : string)
  (sd : option (list pyval)) (recursive : bool) (r : pyval) :
  find_file_by_name E (VStr f) sd recursive = Ret r ->
  r = VNone \/
  exists d p,
    r = VStr p /\ In (VStr d) (effective_dirs E sd) /\
    isdir (fs E) d = true /\
    ((p = path_join d f /\ isfile (fs E) p = true) \/
     (recursive = true /\
      isfile (fs E) (path_join d f) = false /\
      In p (glob (fs E) (path_join (path_join d "**") f)) /\
      getmtime (fs E) p <> None)).
Proof.
  intros Hrun. destruct (truthy (VStr f)) eqn:Hf.
  - rewrite find_file_by_name_effective in Hrun by exact Hf.
    now apply search_loop_sound.
  - rewrite find_file_by_name_falsy in Hrun by exact Hf.
    injection Hrun as <-. now left.
Qed.

Lemma find_result_comes_from_a_listed_dir_witness :
  VStr "/out/y/pic.png" = VNone \/
  exists d p,
    VStr "/out/y/pic.png" = VStr p /\
    In (VStr d) (effective_dirs sample_env (Some [VStr "/a"; VStr "/out"])) /\
    isdir (fs sample_env) d = true /\
    ((p = path_join d "pic.png" /\ isfile (fs sample_env) p = true) \/
     (true = true /\
      isfile (fs sample_env) (path_join d "pic.png") = false /\
      In p (glob (fs sample_env) (path_join (path_join d "**") "pic.png")) /\
      getmtime (fs sample_env) p <> None)).
Proof.
  apply (find_result_comes_from_a_listed_dir sample_env "pic.png"
           (Some [VStr "/a"; VStr "/out"]) true).
  reflexivity.
Defined.

(** X3.  A search that is not recursive, through directories given as
    strings, never raises and returns the direct file of the first listed
    directory that exists and holds it, or [None] when there is none. *)
Theorem find_nonrecursive_first_direct (E : env) (f : string)
  (dirs : list string) :
  f <> "" -> dirs <> [] ->
  find_file_by_name E (VStr f) (Some (map VStr dirs)) false
  = Ret (match first_direct_dir E f dirs with
         | Some d => VStr (path_join d f)
         | None => VNone
         end).
Proof.
  intros Hf Hdirs.
  rewrite find_file_by_name_listed; auto.
  - clear Hdirs. unfold first_direct_dir.
    induction dirs as [|d dirs IH]; [reflexivity|].
    cbn [map search_loop os_path_isdir os_path_join bind find].
    destruct (isdir (fs E) d); cbn [negb andb]; [|exact IH].
    destruct (isfile (fs E) (path_join d f)); [reflexivity | exact IH].
  - destruct dirs; [congruence | discriminate].
Qed.

Lemma find_nonrecursive_first_direct_witness :
  find_file_by_name sample_env (VStr "img.png")
    (Some (map VStr ["/a"; "/b"; "/app/outputs"])) false
  = Ret (VStr "/b/img.png").
Proof.
  apply (find_nonrecursive_first_direct sample_env "img.png"
           ["/a"; "/b"; "/app/outputs"]); discriminate.
Defined.

Lemma mtime_of_Some (E : env) (p : string) (t : Z) :
  getmtime (fs E) p = Some t -> mtime_of E p = t.
Proof.
  unfold mtime_of. now intros ->.
Qed.

Lemma max_loop_first (E : env) (rest : list string) :
  forall item val l1 l2,
    getmtime (fs E) item = Some val ->
    (forall x, In x rest -> getmtime (fs E) x <> None) ->
    (forall x, In x l1 -> (mtime_of E x < val)%Z) ->
    (forall x, In x l2 -> (mtime_of E x <= val)%Z) ->
    exists l1' m l2',
      l1 ++ item :: l2 ++ rest = l1' ++ m :: l2' /\
      max_loop E item val rest = Ret m /\
      (forall x, In x l1' -> (mtime_of E x < mtime_of E m)%Z) /\
      (forall x, In x l2' -> (mtime_of E x <= mtime_of E m)%Z).
Proof.
  induction rest as [|x rest IH]; intros item val l1 l2 Hitem Hall H1 H2.
  - exists l1, item, l2. rewrite app_nil_r, (mtime_of_Some E item val Hitem).
    auto.
  - destruct (getmtime (fs E) x) as [tx|] eqn:Hx;
      [|now elim (Hall x (or_introl eq_refl))].
    assert (Hrest : forall y, In y rest -> getmtime (fs E) y <> None)
      by (intros y Hy; apply Hall; now right).
    cbn [max_loop]. unfold os_path_getmtime. rewrite Hx. cbn [bind].
    destruct (Z.gtb_spec tx val) as [Hgt | Hle].
    + destruct (IH x tx (l1 ++ item :: l2) [] Hx Hrest)
        as (l1' & m & l2' & Heq & Hrun & Hb & Ha).
      * intros y Hy. apply in_app_or in Hy as [Hy | [<- | Hy]].
        -- specialize (H1 y Hy). lia.
        -- rewrite (mtime_of_Some E item val Hitem). lia.
        -- specialize (H2 y Hy). lia.
      * intros y [].
      * exists l1', m, l2'. split; [|auto].
        rewrite <- Heq, <- app_assoc. reflexivity.
    + destruct (IH item val l1 (l2 ++ [x]) Hitem Hrest H1)
        as (l1' & m & l2' & Heq & Hrun & Hb & Ha).
      * intros y Hy. apply in_app_or in Hy as [Hy | [<- | []]].
        -- now apply H2.
        -- rewrite (mtime_of_Some E x tx Hx). exact Hle.
      * exists l1', m, l2'. split; [|auto].
        rewrite <- Heq, <- app_assoc. reflexivity.
Qed.

(** X4.  In a recursive search that reaches directory [d], where the matches
    [ms] all have a modification time, the result is the first match, in
    the order [glob] lists them, that no other match is more recent than:
    every match listed before it is strictly older, so equal times are
    settled in favour of the match listed first. *)
Theorem find_recursive_first_of_most_recent (E : env) (f : string)
  (pre : list string) (d : string) (post : list pyval) (ms : list string) :
  f <> "" ->
  Forall (no_match E f true) pre ->
  isdir (fs E) d = true ->
  isfile (fs E) (path_join d f) = false ->
  glob (fs E) (path_join (path_join d "**") f) = ms ->
  ms <> [] ->
  (forall m, In m ms -> getmtime (fs E) m <> None) ->
  exists l1 m l2,
    ms = l1 ++ m :: l2 /\
    find_file_by_name E (VStr f) (Some (map VStr pre ++ VStr d :: post)) true
    = Ret (VStr m) /\
    (forall x, In x l1 -> (mtime_of E x < mtime_of E m)%Z) /\
    (forall x, In x l2 -> (mtime_of E x <= mtime_of E m)%Z).
Proof.
  intros Hf Hpre Hd Hfile Hglob Hne Hall.
  destruct ms as [|m0 ms']; [congruence|].
  destruct (getmtime (fs E) m0) as [t0|] eqn:H0;
    [|now elim (Hall m0 (or_introl eq_refl))].
  destruct (max_loop_first E ms' m0 t0 [] [] H0)
    as (l1 & m & l2 & Heq & Hrun & Hb & Ha).
  - intros x Hx. apply Hall. now right.
  - intros x [].
  - intros x [].
  - exists l1, m, l2. split; [exact Heq|]. split; [|auto].
    rewrite find_file_by_name_listed; auto.
    + rewrite search_loop_skip by exact Hpre.
      cbn [search_loop os_path_isdir os_path_join bind].
      rewrite Hd, Hfile. cbn [negb]. rewrite Hglob.
      unfold max_by_mtime, os_path_getmtime. rewrite H0. cbn [bind].
      now rewrite Hrun.
    + destruct pre; discriminate.
Qed.

Lemma find_recursive_first_of_most_recent_witness :
  exists l1 m l2,
    ["/out/x/pic.png"; "/out/y/pic.png"] = l1 ++ m :: l2 /\
    find_file_by_name sample_env (VStr "pic.png")
      (Some (map VStr ["/nowhere"] ++ VStr "/out" :: [])) true
    = Ret (VStr m) /\
    (forall x, In x l1 -> (mtime_of sample_env x < mtime_of sample_env m)%Z) /\
    (forall x, In x l2 -> (mtime_of sample_env x <= mtime_of sample_env m)%Z).
Proof.
  apply (find_recursive_first_of_most_recent sample_env "pic.png"
           ["/nowhere"] "/out" [] ["/out/x/pic.png"; "/out/y/pic.png"]).
  - discriminate.
  - constructor; [left; reflexivity | constructor].
  - reflexivity.
  - reflexivity.
  - reflexivity.
  - discriminate.
  - intros m [<- | [<- | []]]; discriminate.
Defined.

Lemma max_loop_raises (E : env) (rest : list string) :
  forall item val,
    (exists x, In x rest /\ getmtime (fs E) x = None) ->
    max_loop E item val rest = Raise OSError.
Proof.
  induction rest as [|y rest IH]; intros item val (x & Hin & Hx).
  - destruct Hin.
  - cbn [max_loop]. unfold os_path_getmtime.
    destruct (getmtime (fs E) y) as [ty|] eqn:Hy; [|reflexivity].
    cbn [bind].
    assert (Hrest : exists x, In x rest /\ getmtime (fs E) x = None).
    { destruct Hin as [<- | Hin]; [congruence | eauto]. }
    destruct (ty >? val)%Z; now apply IH.
Qed.

(** X5.  In a recursive search that reaches directory [d], a match whose
    modification time cannot be read makes the call raise [OSError]; this
    holds for a single match too, since [max] computes the key of every
    element. *)
Theorem find_raises_when_a_match_has_no_mtime (E : env) (f : string)
  (pre : list string) (d : string) (post : list pyval) (m : string) :
  f <> "" ->
  Forall (no_match E f true) pre ->
  isdir (fs E) d = true ->
  isfile (fs E) (path_join d f) = false ->
  In m (glob (fs E) (path_join (path_join d "**") f)) ->
  getmtime (fs E) m = None ->
  find_file_by_name E (VStr f) (Some (map VStr pre ++ VStr d :: post)) true
  = Raise OSError.
Proof.
  intros Hf Hpre Hd Hfile Hin Hm.
  rewrite find_file_by_name_listed; auto.
  - rewrite search_loop_skip by exact Hpre.
    cbn [search_loop os_path_isdir os_path_join bind].
    rewrite Hd, Hfile. cbn [negb].
    destruct (glob (fs E) (path_join (path_join d "**") f)) as [|m0 ms];
      [destruct Hin|].
    unfold max_by_mtime, os_path_getmtime.
    destruct (getmtime (fs E) m0) as [t0|] eqn:H0; [|reflexivity].
    cbn [bind]. rewrite max_loop_raises; [reflexivity|].
    destruct Hin as [<- | Hin]; [congruence | eauto].
  - destruct pre; discriminate.
Qed.

(** X6.  A filename that is not a string and not empty (a number, a list, a
    dict) makes the call raise [TypeError] as soon as a listed directory
    exists; when no listed directory exists the result is [None] for every
    filename. *)
Theorem find_non_string_filename (E : env) (filename : pyval)
  (pre : list string) (d : string) (post : list pyval) (recursive : bool) :
  truthy filename = true ->
  is_str filename = false ->
  Forall (fun p => isdir (fs E) p = false) pre ->
  (isdir (fs E) d = true ->
   find_file_by_name E filename (Some (map VStr pre ++ VStr d :: post)) recursive
   = Raise TypeError) /\
  (pre <> [] ->
   find_file_by_name E filename (Some (map VStr pre)) recursive = Ret VNone).
Proof.
  intros Ht Hs Hpre.
  assert (Hskip : forall rest,
            search_loop E filename recursive (map VStr pre ++ rest)
            = search_loop E filename recursive rest).
  { intros rest. induction Hpre as [|p pre Hp _ IH]; [reflexivity|].
    cbn [map app search_loop os_path_isdir bind]. now rewrite Hp. }
  split.
  - intros Hd. rewrite find_file_by_name_effective by exact Ht.
    assert (Heff : effective_dirs E (Some (map VStr pre ++ VStr d :: post))
                   = map VStr pre ++ VStr d :: post)
      by (destruct pre; reflexivity).
    rewrite Heff, Hskip.
    cbn [search_loop os_path_isdir bind]. rewrite Hd. cbn [negb].
    destruct filename; try reflexivity. discriminate.
  - intros Hne. rewrite find_file_by_name_effective by exact Ht.
    assert (Heff : effective_dirs E (Some (map VStr pre)) = map VStr pre)
      by (destruct pre; [congruence | reflexivity]).
    rewrite Heff, <- (app_nil_r (map VStr pre)), Hskip. reflexivity.
Qed.

Lemma find_non_string_filename_witness :
  find_file_by_name sample_env (VInt 7)
    (Some (map VStr ["/nowhere"] ++ VStr "/out" :: [])) true = Raise TypeError
  /\ find_file_by_name sample_env (VInt 7) (Some (map VStr ["/nowhere"])) true
     = Ret VNone.
Proof.
  destruct (find_non_string_filename sample_env (VInt 7) ["/nowhere"] "/out"
              [] true) as [Hraise Hnone].
  - reflexivity.
  - reflexivity.
  - constructor; [reflexivity | constructor].
  - split; [apply Hraise; reflexivity | apply Hnone; discriminate].
Defined.

Lemma find_raises_when_a_match_has_no_mtime_witness :
  find_file_by_name Racing.racing_env (VStr "pic.png")
    (Some (map VStr ["/nowhere"] ++ VStr "/out" :: [])) true
  = Raise OSError.
Proof.
  apply (find_raises_when_a_match_has_no_mtime Racing.racing_env "pic.png"
           ["/nowhere"] "/out" [] "/out/y/pic.png").
  - discriminate.
  - constructor; [left; reflexivity | constructor].
  - reflexivity.
  - reflexivity.
  - right. left. reflexivity.
  - reflexivity.
Defined.

(* ------------------------------------------------------------------ *)
(** ** When the resolver cannot raise *)












(* ------------------------------------------------------------------ *)
(** ** [resolve_source_image] on a path string and on a record that is
       not temporary *)

(** X9.  A path string that is not classified temporary and is an existing
    file is returned as it is; no directory is searched, so the answer
    does not depend on the search directories, on [glob] or on
    modification times. *)
Theorem resolve_string_existing_file (E : env) (s : string)
  (sd : option (list pyval)) :
  is_temp_utils s = false ->
  isfile (fs E) s = true ->
  s <> "" ->
  resolve_source_image E (VStr s) sd = Ret (VStr s).
Proof.
  intros Htemp Hfile Hs. unfold resolve_source_image.
  apply truthy_VStr in Hs. rewrite Hs, Htemp, Hfile. reflexivity.
Qed.

Lemma resolve_string_existing_file_witness :
  resolve_source_image sample_env (VStr "/real/a.png") (Some [VInt 3])
  = Ret (VStr "/real/a.png").
Proof.
  apply (resolve_string_existing_file sample_env "/real/a.png" (Some [VInt 3]));
    [reflexivity | reflexivity | discriminate].
Defined.

(** X10.  A path string that is classified temporary, or is no existing file,
    is looked for by its basename: a found path is the result; otherwise
    the string itself when it is an existing file (the temporary copy),
    and [None] when it is not. *)
Theorem resolve_string_by_basename (E : env) (s : string)
  (sd : option (list pyval)) (found : pyval) :
  s <> "" ->
  is_temp_utils s = true \/ isfile (fs E) s = false ->
  find_file_by_name E (VStr (basename s)) sd true = Ret found ->
  resolve_source_image E (VStr s) sd
  = Ret (if truthy found then found
         else if isfile (fs E) s then VStr s else VNone).
Proof.
  intros Hs Hcase Hfind. unfold resolve_source_image.
  apply truthy_VStr in Hs. rewrite Hs. cbn [negb].
  assert (Hdirect : negb (is_temp_utils s) && isfile (fs E) s = false).
  { destruct Hcase as [-> | ->]; [reflexivity | apply andb_false_r]. }
  rewrite Hdirect, Hfind. cbn [bind].
  destruct (truthy found); [reflexivity|].
  destruct (isfile (fs E) s); reflexivity.
Qed.

Lemma resolve_string_by_basename_witness :
  resolve_source_image sample_env (VStr "/Temp/gradio/abc/img.png") None
  = Ret (VStr "/app/outputs/img.png").
Proof.
  apply (resolve_string_by_basename sample_env "/Temp/gradio/abc/img.png" None
           (VStr "/app/outputs/img.png")).
  - discriminate.
  - left. reflexivity.
  - reflexivity.
Defined.

(** X11.  A record that is not temporary and whose [path] is an existing file
    resolves to that [path] without any search, whatever its [filename]
    and the search directories are. *)
Theorem resolve_record_existing_path (E : env) (d : dict)
  (sd : option (list pyval)) :
  truthy (py_get_default d "is_temp" (VBool false)) = false ->
  truthy (py_get d "path") = true ->
  os_path_isfile E (py_get d "path") = Ret true ->
  resolve_source_image E (VDict d) sd = Ret (py_get d "path").
Proof.
  intros Htemp Hpath Hfile.
  assert (Hd : truthy (VDict d) = true).
  { destruct d; [discriminate Hpath | reflexivity]. }
  unfold resolve_source_image. rewrite Hd, Htemp, Hpath. cbn [negb andb].
  now rewrite Hfile.
Qed.

Lemma resolve_record_existing_path_witness :
  resolve_source_image sample_env
    (VDict [("path", VStr "/real/a.png"); ("filename", VInt 4)]) None
  = Ret (VStr "/real/a.png").
Proof.
  apply (resolve_record_existing_path sample_env
           [("path", VStr "/real/a.png"); ("filename", VInt 4)] None);
    reflexivity.
Defined.

(** X12.  A record whose [path] is a value [os.path.isfile] rejects (a
    non-empty list or dict) is not turned into [None]: the call raises
    that [TypeError], at once when the record is not temporary, and after
    a search by [filename] that finds nothing when it is. *)
Theorem resolve_record_bad_path_raises (E : env) (d : dict)
  (sd : option (list pyval)) (e : exn) :
  truthy (py_get d "path") = true ->
  os_path_isfile E (py_get d "path") = Raise e ->
  (truthy (py_get_default d "is_temp" (VBool false)) = false ->
   resolve_source_image E (VDict d) sd = Raise e) /\
  (truthy (py_get_default d "is_temp" (VBool false)) = true ->
   forall found,
     find_file_by_name E (py_get d "filename") sd true = Ret found ->
     truthy found = false ->
     resolve_source_image E (VDict d) sd = Raise e).
Proof.
  intros Hpath Hfile.
  assert (Hd : truthy (VDict d) = true).
  { destruct d; [discriminate Hpath | reflexivity]. }
  unfold resolve_source_image. rewrite Hd, Hpath. cbn [negb].
  split.
  - intros ->. cbn [negb andb]. now rewrite Hfile.
  - intros -> found Hfind Hfound. cbn [negb andb bind].
    destruct (truthy (py_get d "filename")).
    + rewrite Hfind. cbn [bind andb]. rewrite Hfound, Hfile. reflexivity.
    + cbn [bind andb]. now rewrite Hfile.
Qed.

Lemma resolve_record_bad_path_raises_witness :
  resolve_source_image sample_env
    (VDict [("path", VList [VStr "/real/a.png"])]) None = Raise TypeError.
Proof.
  apply (resolve_record_bad_path_raises sample_env
           [("path", VList [VStr "/real/a.png"])] None TypeError);
    reflexivity.
Defined.

(* ------------------------------------------------------------------ *)
(** ** What the two role loops store *)

Lemma mapM_In {A B : Type} (f : A -> M B) (l : list A) :
  forall ys, mapM f l = Ret ys ->
             forall y, In y ys -> exists x, In x l /\ f x = Ret y.
Proof.
  induction l as [|x l IH]; intros ys Hrun y Hy.
  - simpl in Hrun. injection Hrun as <-. destruct Hy.
  - cbn [mapM] in Hrun.
    apply bind_Ret_inv in Hrun as (y0 & Hy0 & Hrun).
    apply bind_Ret_inv in Hrun as (ys0 & Hys0 & Hrun).
    injection Hrun as <-. destruct Hy as [<- | Hy].
    + exists x. split; [now left | exact Hy0].
    + destruct (IH ys0 Hys0 y Hy) as (x' & Hx' & Hfx').
      exists x'. split; [now right | exact Hfx'].
Qed.

Section RoleValues.

Variable f : pyval -> M pyval.
Variable single_ok : pyval -> bool.
Variable Q : pyval -> Prop.

Hypothesis f_gives_Q : forall x r, f x = Ret r -> truthy r = true -> Q r.

Lemma spec_role_info_value (v i : pyval) :
  spec_role_info f single_ok v = Ret (Some i) -> role_value Q i.
Proof.
  destruct v as [| | | |l|]; cbn [spec_role_info];
    try discriminate;
    try (destruct (single_ok _); [|discriminate];
         intros H; apply bind_Ret_inv in H as (r & Hr & H);
         destruct (truthy r) eqn:Ht; [|discriminate];
         injection H as <-; left; now apply (f_gives_Q _ _ Hr)).
  intros H. apply bind_Ret_inv in H as (rs & Hrs & H). injection H as H.
  assert (Hall : Forall Q (filter truthy rs)).
  { apply Forall_forall. intros r Hr. apply filter_In in Hr as [Hin Ht].
    destruct (mapM_In f l rs Hrs r Hin) as (x & _ & Hfx).
    now apply (f_gives_Q x). }
  destruct (filter truthy rs) as [|a [|b t]]; [discriminate| |].
  - injection H as <-. left. now inversion Hall.
  - injection H as <-. right. eexists. split; [reflexivity|].
    split; [simpl; lia | exact Hall].
Qed.

Lemma loop_roles_values (items : list (string * pyval)) :
  forall result out,
    loop_roles f single_ok items result = Ret out ->
    (forall k v, dict_get result k = Some v -> role_value Q v) ->
    forall k v, dict_get out k = Some v -> role_value Q v.
Proof.
  induction items as [|[k0 v0] items IH]; intros result out Hrun Hres.
  - simpl in Hrun. now injection Hrun as <-.
  - rewrite loop_roles_step in Hrun.
    apply bind_Ret_inv in Hrun as (o & Ho & Hrun).
    apply (IH _ _ Hrun). destruct o as [i|]; [|exact Hres].
    intros k v. destruct (string_dec k0 k) as [<- | Hne].
    + rewrite dict_get_set_same. intros [= <-].
      now apply (spec_role_info_value v0).
    + rewrite dict_get_set_other by exact Hne. apply Hres.
Qed.

End RoleValues.

Lemma resolve_and_build_info_record (E : env) (path r : pyval) :
  resolve_and_build_info E path = Ret r ->
  r <> VNone ->
  exists p key val,
    path = VStr p /\
    r = VDict [("filename", VStr (basename p));
               ("is_temp", VBool (is_temp_plugin p));
               (key, val)] /\
    (key = "original_path" \/ key = "temp_path") /\
    truthy val = true.
Proof.
  intros Hrun Hr.
  destruct path as [| | |p| |]; try (injection Hrun as <-; congruence).
  exists p. unfold resolve_and_build_info in Hrun.
  destruct (truthy (VStr p)) eqn:Hp; cbn [negb] in Hrun;
    [|injection Hrun as <-; congruence].
  destruct (is_temp_plugin p) eqn:Htemp.
  - apply bind_Ret_inv in Hrun as (dirs & Hdirs & Hrun).
    apply bind_Ret_inv in Hrun as (found & Hfind & Hrun).
    destruct (truthy found) eqn:Hfound; injection Hrun as <-.
    + exists "original_path", found. repeat split; auto.
    + exists "temp_path", (VStr p). repeat split; auto.
  - injection Hrun as <-.
    exists "original_path", (VStr p). repeat split; auto.
Qed.

Lemma process_source_paths_values_aux (E : env) (source_paths : pyval)
  (out : dict) (k : string) (v : pyval) :
  process_source_paths E source_paths = Ret (VDict out) ->
  dict_get out k = Some v ->
  role_value info_record v.
Proof.
  intros Hrun Hget. unfold process_source_paths in Hrun.
  destruct (truthy source_paths); cbn [negb] in Hrun; [|discriminate].
  destruct source_paths as [| | | | |items]; try discriminate.
  apply bind_Ret_inv in Hrun as (result & Hloop & Hrun).
  destruct (truthy (VDict result)); [|discriminate].
  injection Hrun as <-. rewrite build_roles_loop in Hloop.
  apply (loop_roles_values (resolve_and_build_info E) is_str info_record)
    with (items := items) (result := []) (out := result) (k := k);
    try assumption.
  - intros x r Hx Hr.
    destruct (resolve_and_build_info_record E x r Hx)
      as (p & key & val & _ & -> & Hkey & Hval);
      [intros ->; discriminate|].
    now exists p, key, val.
  - intros ? ? [=].
Qed.

(** X13.  Every value [process_source_paths] stores for a role is a record
    built by [resolve_and_build_info] or a list of at least two such
    records: never [None], an empty list or a list of one. *)
Theorem process_source_paths_values (E : env) (source_paths : pyval)
  (out : dict) (k : string) (v : pyval) :
  process_source_paths E source_paths = Ret (VDict out) ->
  dict_get out k = Some v ->
  role_value info_record v.
Proof.
  apply process_source_paths_values_aux.
Qed.

Lemma process_source_paths_values_witness :
  role_value info_record
    (VDict [("filename", VStr "a.png"); ("is_temp", VBool false);
            ("original_path", VStr "/real/a.png")]).
Proof.
  apply (process_source_paths_values sample_env (VDict sample_roles) _
           "image_mask" _ eq_refl eq_refl).
Defined.

Lemma search_loop_result (E : env) (filename : pyval) (recursive : bool)
  (dirs : list pyval) :
  forall r, search_loop E filename recursive dirs = Ret r ->
            r = VNone \/ exists p, r = VStr p.
Proof.
  induction dirs as [|d dirs IH]; intros r Hrun.
  - simpl in Hrun. injection Hrun as <-. now left.
  - cbn [search_loop] in Hrun.
    apply bind_Ret_inv in Hrun as (isd & _ & Hrun).
    destruct isd; cbn [negb] in Hrun; [|auto].
    apply bind_Ret_inv in Hrun as (direct & _ & Hrun).
    destruct (isfile (fs E) direct); [injection Hrun as <-; eauto|].
    destruct recursive; [|auto].
    apply bind_Ret_inv in Hrun as (prefix & _ & Hrun).
    apply bind_Ret_inv in Hrun as (pattern & _ & Hrun).
    destruct (glob (fs E) pattern); [auto|].
    apply bind_Ret_inv in Hrun as (best & _ & Hrun).
    injection Hrun as <-. eauto.
Qed.

Lemma find_file_by_name_result (E : env) (filename : pyval)
  (sd : option (list pyval)) (recursive : bool) (r : pyval) :
  find_file_by_name E filename sd recursive = Ret r ->
  r = VNone \/ exists p, r = VStr p.
Proof.
  unfold find_file_by_name. destruct (truthy filename); cbn [negb].
  - apply search_loop_result.
  - intros [= <-]. now left.
Qed.

Lemma os_path_isfile_path (E : env) (v : pyval) :
  os_path_isfile E v = Ret true ->
  match v with VStr _ | VInt _ | VBool _ => True | _ => False end.
Proof.
  destruct v; simpl; auto; discriminate.
Qed.

Lemma resolve_source_image_path (E : env) (x r : pyval)
  (sd : option (list pyval)) :
  resolve_source_image E x sd = Ret r -> truthy r = true -> path_value r.
Proof.
  intros Hrun Hr. split; [exact Hr|].
  unfold resolve_source_image in Hrun.
  destruct (truthy x); cbn [negb] in Hrun;
    [|injection Hrun as <-; discriminate].
  destruct x as [| | |s| |d]; try (injection Hrun as <-; discriminate).
  - destruct (negb (is_temp_utils s) && isfile (fs E) s);
      [now injection Hrun as <-|].
    apply bind_Ret_inv in Hrun as (found & Hfind & Hrun).
    destruct (truthy found) eqn:Hfound.
    + injection Hrun as <-.
      destruct (find_file_by_name_result _ _ _ _ _ Hfind) as [-> | [p ->]];
        [discriminate | exact I].
    + destruct (isfile (fs E) s); injection Hrun as <-; [exact I | discriminate].
  - apply bind_Ret_inv in Hrun as (direct & Hdirect & Hrun).
    destruct direct.
    + injection Hrun as <-.
      destruct (negb _ && truthy (py_get d "path")); [|discriminate].
      now apply (os_path_isfile_path E).
    + apply bind_Ret_inv in Hrun as (found & Hfind & Hrun).
      destruct (truthy (py_get d "filename") && truthy found) eqn:Hboth.
      * injection Hrun as <-.
        destruct (truthy (py_get d "filename")); [|discriminate].
        destruct (find_file_by_name_result _ _ _ _ _ Hfind) as [-> | [p ->]];
          [discriminate | exact I].
      * apply bind_Ret_inv in Hrun as (last & Hlast & Hrun).
        destruct last; injection Hrun as <-; [|discriminate].
        destruct (truthy (py_get d "path")); [|discriminate].
        now apply (os_path_isfile_path E).
Qed.

(** X14.  Every value [get_source_images_from_metadata] stores for a role is a
    resolved path or a list of at least two resolved paths: never [None],
    an empty list, a list of one, or a record. *)
Theorem metadata_extraction_values (E : env) (metadata : dict)
  (sd : option (list pyval)) (out : dict) (k : string) (v : pyval) :
  get_source_images_from_metadata E metadata sd = Ret (VDict out) ->
  dict_get out k = Some v ->
  role_value path_value v.
Proof.
  intros Hrun Hget. unfold get_source_images_from_metadata in Hrun.
  destruct (truthy (py_get_default metadata "source_images" (VDict [])));
    cbn [negb] in Hrun; [|injection Hrun as <-; discriminate].
  destruct (py_get_default metadata "source_images" (VDict []))
    as [| | | | |items]; try discriminate.
  apply bind_Ret_inv in Hrun as (result & Hloop & Hrun).
  injection Hrun as <-. rewrite resolve_roles_loop in Hloop.
  apply (loop_roles_values (fun x => resolve_source_image E x sd)
           (fun _ => true) path_value)
    with (items := items) (result := []) (out := result) (k := k);
    try assumption.
  - intros x r Hx Hr. now apply (resolve_source_image_path E x r sd).
  - intros ? ? [=].
Qed.

Lemma metadata_extraction_values_witness :
  role_value path_value (VStr "/real/a.png").
Proof.
  apply (metadata_extraction_values sample_env sample_metadata None _
           "image_refs" _ eq_refl eq_refl).
Defined.

(* ------------------------------------------------------------------ *)
(** ** A record written by the plugin, read back by the resolver *)

(** X15.  [resolve_source_image] reads the key [path], which the records of
    [resolve_and_build_info] do not have: such a record is resolved by
    its [filename] alone, and its [original_path] or [temp_path] is never
    returned for itself.  The result is what [find_file_by_name] finds
    under the search directories, and [None] when that is nothing, even
    if the recorded path exists. *)
Theorem plugin_record_resolved_by_filename_only (E E' : env) (path : pyval)
  (info : dict) (sd : option (list pyval)) :
  resolve_and_build_info E path = Ret (VDict info) ->
  resolve_source_image E' (VDict info) sd
  = found <- find_file_by_name E' (py_get info "filename") sd true ;;
    Ret (if truthy found then found else VNone).
Proof.
  intros Hrun.
  destruct (resolve_and_build_info_record E path (VDict info) Hrun)
    as (p & key & val & _ & Hinfo & Hkey & _); [discriminate|].
  injection Hinfo as ->.
  assert (Hpath : py_get [("filename", VStr (basename p));
                          ("is_temp", VBool (is_temp_plugin p)); (key, val)]
                    "path" = VNone).
  { destruct Hkey as [-> | ->]; reflexivity. }
  unfold resolve_source_image at 1. rewrite Hpath.
  cbn [truthy negb andb bind].
  rewrite andb_false_r. cbn [bind].
  change (py_get [("filename", VStr (basename p));
                  ("is_temp", VBool (is_temp_plugin p)); (key, val)]
            "filename") with (VStr (basename p)).
  destruct (truthy (VStr (basename p))) eqn:Hname.
  - destruct (find_file_by_name E' (VStr (basename p)) sd true) as [found|e];
      [|reflexivity].
    cbn [bind andb]. destruct (truthy found); reflexivity.
  - rewrite find_file_by_name_falsy by exact Hname. reflexivity.
Qed.

Lemma plugin_record_resolved_by_filename_only_witness :
  resolve_and_build_info sample_env (VStr "/real/a.png")
  = Ret (VDict [("filename", VStr "a.png"); ("is_temp", VBool false);
                ("original_path", VStr "/real/a.png")]) /\
  isfile (fs sample_env) "/real/a.png" = true /\
  resolve_source_image sample_env
    (VDict [("filename", VStr "a.png"); ("is_temp", VBool false);
            ("original_path", VStr "/real/a.png")]) None
  = Ret VNone.
Proof.
  split; [reflexivity|]. split; [reflexivity|].
  rewrite (plugin_record_resolved_by_filename_only sample_env sample_env
             (VStr "/real/a.png")
             [("filename", VStr "a.png"); ("is_temp", VBool false);
              ("original_path", VStr "/real/a.png")] None eq_refl).
  reflexivity.
Defined.

(* ------------------------------------------------------------------ *)
(** ** [before_metadata_save_hook] *)

Lemma process_source_paths_result (E : env) (source_paths r : pyval) :
  process_source_paths E source_paths = Ret r ->
  r = VNone \/ exists out, r = VDict out /\ out <> [].
Proof.
  unfold process_source_paths.
  destruct (truthy source_paths); cbn [negb]; [|intros [= <-]; now left].
  destruct source_paths; try discriminate.
  intros H. apply bind_Ret_inv in H as (result & _ & H).
  destruct result as [|kv result]; simpl in H; injection H as <-;
    [now left | right; eexists; split; [reflexivity | discriminate]].
Qed.

(** X16.  The hook leaves [configs] as it is, or stores under [source_images]
    a non-empty mapping of well-formed role values; every other key of
    [configs] keeps its value.  Without plugin data ([None] or an empty
    dict) it returns [configs] unchanged, whatever [configs] is. *)
Theorem hook_changes_source_images_only (E : env)
  (configs plugin_data : pyval) :
  (truthy plugin_data = false ->
   before_metadata_save_hook E configs plugin_data = Ret configs) /\
  forall r,
    before_metadata_save_hook E configs plugin_data = Ret r ->
    (forall k, k <> "source_images" ->
               role_lookup r k = role_lookup configs k) /\
    (r = configs \/
     exists c info,
       configs = VDict c /\ info <> [] /\
       r = VDict (dict_set c "source_images" (VDict info)) /\
       forall k v, dict_get info k = Some v -> role_value info_record v).
Proof.
  split.
  - intros Hpd. unfold before_metadata_save_hook. rewrite Hpd.
    destruct configs; reflexivity.
  - intros r Hrun. unfold before_metadata_save_hook in Hrun.
    assert (Hbody :
      (source_paths <-
         (if truthy plugin_data then
            match plugin_data with
            | VDict d => Ret (py_get_default d "source_image_paths" (VDict []))
            | _ => Raise AttributeError
            end
          else Ret (VDict [])) ;;
       source_info <- process_source_paths E source_paths ;;
       if truthy source_info then
         match configs with
         | VDict c => Ret (VDict (dict_set c "source_images" source_info))
         | _ => Raise TypeError
         end
       else Ret configs) = Ret r ->
      (forall k, k <> "source_images" ->
                 role_lookup r k = role_lookup configs k) /\
      (r = configs \/
       exists c info,
         configs = VDict c /\ info <> [] /\
         r = VDict (dict_set c "source_images" (VDict info)) /\
         forall k v, dict_get info k = Some v -> role_value info_record v)).
    { clear Hrun. intros Hrun.
      apply bind_Ret_inv in Hrun as (sp & _ & Hrun).
      apply bind_Ret_inv in Hrun as (si & Hsi & Hrun).
      destruct (truthy si) eqn:Ht; [|injection Hrun as <-; auto].
      destruct configs as [| | | | |c]; try discriminate.
      injection Hrun as <-.
      destruct (process_source_paths_result E sp si Hsi)
        as [-> | (info & -> & Hinfo)]; [discriminate|].
      split.
      - intros k Hk. cbn [role_lookup]. now apply dict_get_set_other.
      - right. exists c, info. repeat split; auto.
        intros k v. now apply (process_source_paths_values_aux E sp). }
    destruct configs; try (apply Hbody; exact Hrun).
    injection Hrun as <-. auto.
Qed.

Lemma hook_changes_source_images_only_witness :
  before_metadata_save_hook sample_env (VDict [("prompt", VStr "a cat")])
    (VDict [("source_image_paths", VDict sample_roles)])
  = Ret (VDict [("prompt", VStr "a cat");
                ("source_images",
                 VDict [("image_start",
                         VDict [("filename", VStr "photo.png");
                                ("is_temp", VBool true);
                                ("temp_path",
                                 VStr "/Temp/gradio/abc/photo.png")]);
                        ("image_refs",
                         VList [VDict [("filename", VStr "a.png");
                                       ("is_temp", VBool false);
                                       ("original_path", VStr "/real/a.png")];
                                VDict [("filename", VStr "b.png");
                                       ("is_temp", VBool false);
                                       ("original_path", VStr "/real/b.png")]]);
                        ("image_mask",
                         VDict [("filename", VStr "a.png");
                                ("is_temp", VBool false);
                                ("original_path", VStr "/real/a.png")])])])
  /\ role_lookup (VDict [("prompt", VStr "a cat")]) "prompt"
     = Some (VStr "a cat").
Proof.
  split; [reflexivity|].
  destruct (hook_changes_source_images_only sample_env
              (VDict [("prompt", VStr "a cat")])
              (VDict [("source_image_paths", VDict sample_roles)]))
    as [_ Hres].
  destruct (Hres _ eq_refl) as [Hkeep _].
  rewrite <- (Hkeep "prompt"); [reflexivity | discriminate].
Defined.

(* ------------------------------------------------------------------ *)
(** ** [get_configured_output_dirs] *)

Lemma distinct_from_snoc (l : list pyval) :
  forall seen x,
    distinct_from seen (l ++ [x])
    = distinct_from seen l && negb (py_in x (seen ++ l)).
Proof.
  induction l as [|y l IH]; intros seen x; simpl.
  - now rewrite app_nil_r, andb_true_r.
  - rewrite IH, <- app_assoc, andb_assoc. reflexivity.
Qed.

Lemma py_in_VStr (s : string) (l : list pyval) :
  py_in (VStr s) l = true -> In (VStr s) l.
Proof.
  unfold py_in. intros H. apply existsb_exists in H as (y & Hy & Heq).
  destruct y; try discriminate. apply String.eqb_eq in Heq. now subst.
Qed.

Lemma path_join_outputs_nonempty (a : string) : path_join a "outputs" <> "".
Proof.
  unfold path_join. cbn [startswith_sep is_sep].
  destruct (Ascii.eqb "o" "/") eqn:Ho; [discriminate Ho|].
  destruct (String.eqb a "" || endswith_sep a); destruct a; discriminate.
Qed.

Section AddDirs.

Variable E : env.

(** An entry fit for the list: not empty, and an existing directory. *)
Let good (v : pyval) : Prop :=
  truthy v = true /\ os_path_isdir E v = Ret true.

Lemma add_dirs_step (path : pyval) (d : bool) (acc : list pyval) :
  (if truthy path then os_path_isdir E path else Ret false) = Ret d ->
  d && negb (py_in path acc) = true ->
  good path /\ py_in path acc = false.
Proof.
  intros Hd Hand. apply andb_prop in Hand as [-> Hin].
  apply negb_true_iff in Hin. split; [|exact Hin].
  unfold good. destruct (truthy path); [now split | discriminate].
Qed.

Lemma add_dirs_invariant (paths : list pyval) :
  forall acc out,
    add_dirs E paths acc = Ret out ->
    Forall good acc -> distinct_entries acc = true ->
    Forall good out /\ distinct_entries out = true.
Proof.
  induction paths as [|path paths IH]; intros acc out Hrun Hgood Hdist.
  - simpl in Hrun. now injection Hrun as <-.
  - cbn [add_dirs] in Hrun.
    apply bind_Ret_inv in Hrun as (d & Hd & Hrun).
    destruct (d && negb (py_in path acc)) eqn:Hand; [|eauto].
    destruct (add_dirs_step path d acc Hd Hand) as [Hpath Hnew].
    apply (IH _ _ Hrun).
    + apply Forall_app. split; [exact Hgood | now constructor].
    + unfold distinct_entries in *. rewrite distinct_from_snoc, Hdist.
      cbn [app andb]. now rewrite Hnew.
Qed.

Lemma add_dirs_complete (paths : list pyval) :
  forall acc out,
    add_dirs E paths acc = Ret out ->
    (forall x, In x acc -> In x out) /\
    (forall s, In (VStr s) paths -> s <> "" -> isdir (fs E) s = true ->
               In (VStr s) out).
Proof.
  induction paths as [|path paths IH]; intros acc out Hrun.
  - simpl in Hrun. injection Hrun as <-. split; [auto | intros ? []].
  - cbn [add_dirs] in Hrun.
    apply bind_Ret_inv in Hrun as (d & Hd & Hrun).
    assert (Hstep : exists acc',
              add_dirs E paths acc' = Ret out /\
              (forall x, In x acc -> In x acc') /\
              (forall s, path = VStr s -> s <> "" -> isdir (fs E) s = true ->
                         In (VStr s) acc')).
    { destruct (d && negb (py_in path acc)) eqn:Hand.
      - exists (acc ++ [path]). split; [exact Hrun|]. split.
        + intros x Hx. apply in_or_app. now left.
        + intros s -> _ _. apply in_or_app. right. now left.
      - exists acc. split; [exact Hrun|]. split; [auto|].
        intros s -> Hs Hdir. apply py_in_VStr.
        apply truthy_VStr in Hs. rewrite Hs in Hd. simpl in Hd.
        rewrite Hdir in Hd. injection Hd as <-. cbn [andb] in Hand.
        now apply negb_false_iff in Hand. }
    destruct Hstep as (acc' & Hrun' & Hmono & Hhead).
    destruct (IH _ _ Hrun') as [Hacc Hrest].
    split; [auto|].
    intros s [Heq | Hin] Hs Hdir; [apply Hacc; now apply Hhead | eauto].
Qed.

End AddDirs.

(** X18.  Every entry [get_configured_output_dirs] returns is a non-empty
    value naming an existing directory, and no entry is equal to one
    before it. *)
Theorem configured_dirs_exist_and_are_distinct (E : env) (dirs : list pyval) :
  get_configured_output_dirs E = Ret dirs ->
  Forall (fun v => truthy v = true /\ os_path_isdir E v = Ret true) dirs /\
  distinct_entries dirs = true.
Proof.
  intros Hrun. unfold get_configured_output_dirs in Hrun.
  apply bind_Ret_inv in Hrun as (sd & Hsd & Hrun).
  assert (Hinv : Forall (fun v => truthy v = true /\ os_path_isdir E v = Ret true)
                   sd /\ distinct_entries sd = true).
  { destruct (server_config E) as [[|kv c]|];
      try (injection Hsd as <-; split; [constructor | reflexivity]).
    apply bind_Ret_inv in Hsd as (sd1 & Hsd1 & Hsd).
    destruct (add_dirs_invariant E _ _ _ Hsd1) as [Hg1 Hd1];
      [constructor | reflexivity |].
    destruct (py_get_default (kv :: c) CONFIG_KEY_SEARCH_DIRS (VList []));
      try (injection Hsd as <-; now split).
    now apply (add_dirs_invariant E _ _ _ Hsd). }
  destruct Hinv as [Hgood Hdist].
  destruct (isdir (fs E) (default_outputs (plugin_file E))) eqn:Hdir;
    cbn [andb] in Hrun; [|injection Hrun as <-; now split].
  destruct (py_in (VStr (default_outputs (plugin_file E))) sd) eqn:Hin;
    cbn [negb] in Hrun; injection Hrun as <-; [now split|].
  split.
  - apply Forall_app. split; [exact Hgood|]. constructor; [|constructor].
    split; [|simpl; now rewrite Hdir].
    apply truthy_VStr. apply path_join_outputs_nonempty.
  - unfold distinct_entries in *. rewrite distinct_from_snoc, Hdist.
    cbn [app andb]. now rewrite Hin.
Qed.

Lemma configured_dirs_are_complete_aux (E : env) (dirs : list pyval) :
  get_configured_output_dirs E = Ret dirs ->
  (isdir (fs E) (default_outputs (plugin_file E)) = true ->
   In (VStr (default_outputs (plugin_file E))) dirs) /\
  (forall c key s,
      server_config E = Some c ->
      In key ["save_path"; "image_save_path"; "audio_save_path"] ->
      py_get c key = VStr s -> s <> "" -> isdir (fs E) s = true ->
      In (VStr s) dirs) /\
  (forall c custom s,
      server_config E = Some c ->
      dict_get c CONFIG_KEY_SEARCH_DIRS = Some (VList custom) ->
      In (VStr s) custom -> s <> "" -> isdir (fs E) s = true ->
      In (VStr s) dirs).
Proof.
  intros Hrun. unfold get_configured_output_dirs in Hrun.
  apply bind_Ret_inv in Hrun as (sd & Hsd & Hrun).
  assert (Hmono : forall x, In x sd -> In x dirs).
  { intros x Hx.
    destruct (isdir (fs E) (default_outputs (plugin_file E))
              && negb (py_in (VStr (default_outputs (plugin_file E))) sd));
      injection Hrun as <-; [apply in_or_app; now left | exact Hx]. }
  split; [|split].
  - intros Hdir. rewrite Hdir in Hrun. cbn [andb] in Hrun.
    destruct (py_in (VStr (default_outputs (plugin_file E))) sd) eqn:Hin;
      cbn [negb] in Hrun; injection Hrun as <-.
    + now apply py_in_VStr.
    + apply in_or_app. right. now left.
  - intros c key s Hc Hkey Hget Hs Hdir. apply Hmono.
    rewrite Hc in Hsd.
    destruct c as [|kv c]; [discriminate Hget|].
    apply bind_Ret_inv in Hsd as (sd1 & Hsd1 & Hsd).
    destruct (add_dirs_complete E _ _ _ Hsd1) as [_ Hin1].
    assert (H1 : In (VStr s) sd1).
    { apply Hin1; auto. rewrite <- Hget. now apply in_map. }
    destruct (py_get_default (kv :: c) CONFIG_KEY_SEARCH_DIRS (VList []));
      try (injection Hsd as <-; exact H1).
    destruct (add_dirs_complete E _ _ _ Hsd) as [Hacc _]. now apply Hacc.
  - intros c custom s Hc Hget Hin Hs Hdir. apply Hmono.
    rewrite Hc in Hsd.
    destruct c as [|kv c]; [discriminate Hget|].
    apply bind_Ret_inv in Hsd as (sd1 & _ & Hsd).
    unfold py_get_default in Hsd. rewrite Hget in Hsd.
    destruct (add_dirs_complete E _ _ _ Hsd) as [_ Hall]. now apply Hall.
Qed.

(** X19.  [get_configured_output_dirs] leaves out nothing it should list: the
    default [outputs] directory when it exists, every configured save
    path that is an existing directory, and every custom directory of the
    configuration that exists. *)
Theorem configured_dirs_are_complete (E : env) (dirs : list pyval) :
  get_configured_output_dirs E = Ret dirs ->
  (isdir (fs E) (default_outputs (plugin_file E)) = true ->
   In (VStr (default_outputs (plugin_file E))) dirs) /\
  (forall c key s,
      server_config E = Some c ->
      In key ["save_path"; "image_save_path"; "audio_save_path"] ->
      py_get c key = VStr s -> s <> "" -> isdir (fs E) s = true ->
      In (VStr s) dirs) /\
  (forall c custom s,
      server_config E = Some c ->
      dict_get c CONFIG_KEY_SEARCH_DIRS = Some (VList custom) ->
      In (VStr s) custom -> s <> "" -> isdir (fs E) s = true ->
      In (VStr s) dirs).
Proof.
  apply configured_dirs_are_complete_aux.
Qed.

Lemma configured_dirs_exist_and_are_distinct_witness :
  get_configured_output_dirs Configured.configured_env
  = Ret [VStr "/out"; VStr "/b"; VStr "/app/outputs"] /\
  distinct_entries [VStr "/out"; VStr "/b"; VStr "/app/outputs"] = true.
Proof.
  split; [reflexivity|].
  apply (configured_dirs_exist_and_are_distinct Configured.configured_env).
  reflexivity.
Defined.

Lemma configured_dirs_are_complete_witness :
  In (VStr "/b") [VStr "/out"; VStr "/b"; VStr "/app/outputs"].
Proof.
  destruct (configured_dirs_are_complete Configured.configured_env
              [VStr "/out"; VStr "/b"; VStr "/app/outputs"] eq_refl)
    as (_ & _ & Hcustom).
  apply (Hcustom Configured.config
           [VStr "/b"; VStr "/nowhere"; VStr "/out"] "/b").
  - reflexivity.
  - reflexivity.
  - left. reflexivity.
  - discriminate.
  - reflexivity.
Defined.

(* ------------------------------------------------------------------ *)
(** ** The custom search directories of the plugin *)

Lemma py_eq_VStr_sym (s : string) (y : pyval) :
  py_eq y (VStr s) = py_eq (VStr s) y.
Proof.
  destruct y; try reflexivity. simpl. apply String.eqb_sym.
Qed.

Lemma get_custom_dirs_config (self : plugin) (c : dict) :
  p_server_config self = Some c -> c <> [] ->
  _get_custom_dirs self
  = match py_get_default c CONFIG_KEY_SEARCH_DIRS (VList []) with
    | VList dirs => dirs
    | _ => []
    end.
Proof.
  intros Hc Hne. unfold _get_custom_dirs. rewrite Hc.
  destruct c; [congruence | reflexivity].
Qed.

Lemma get_custom_dirs_no_config (self : plugin) :
  p_server_config self = None \/ p_server_config self = Some [] ->
  _get_custom_dirs self = [].
Proof.
  unfold _get_custom_dirs. now intros [-> | ->].
Qed.

Lemma show_config (self : plugin) (t : toast) :
  p_server_config (show self t) = p_server_config self.
Proof. reflexivity. Qed.

Lemma store_other_keys (self : plugin) (dirs : list pyval) (k : string) :
  k <> CONFIG_KEY_SEARCH_DIRS ->
  config_lookup (store self dirs) k = config_lookup self k.
Proof.
  intros Hk. unfold store, _save_custom_dirs, update_in_place, config_lookup.
  destruct (p_server_config self) as [[|kv c]|] eqn:Hc;
    rewrite ?Hc; try reflexivity.
  assert (Hset : forall (c0 : dict) v,
            dict_get (dict_set c0 CONFIG_KEY_SEARCH_DIRS v) k = dict_get c0 k)
    by (intros; apply dict_get_set_other; congruence).
  destruct (dict_get (kv :: c) CONFIG_KEY_SEARCH_DIRS) as [[| | | |l|]|];
    cbn [set_config p_server_config p_server_config_filename];
    rewrite ?Hc;
    try (destruct (truthy (p_server_config_filename self));
         cbn [log_write set_config p_server_config]; rewrite ?Hc, ?Hset;
         reflexivity).
  destruct (dict_set (kv :: c) CONFIG_KEY_SEARCH_DIRS (VList dirs))
    as [|kv' c'] eqn:Hset'; [now apply dict_set_nonempty in Hset'|].
  destruct (truthy (p_server_config_filename self));
    cbn [log_write set_config p_server_config];
    rewrite <- ?Hset', ?Hset; reflexivity.
Qed.

Lemma keeps_changes_dec (self : plugin) :
  keeps_changes self \/
  (p_server_config self = None \/ p_server_config self = Some [] \/
   (truthy (p_server_config_filename self) = false /\
    forall l, config_lookup self CONFIG_KEY_SEARCH_DIRS <> Some (VList l))).
Proof.
  unfold keeps_changes, config_lookup.
  destruct (p_server_config self) as [[|kv c]|]; auto.
  destruct (truthy (p_server_config_filename self)) eqn:Hf.
  - left. exists (kv :: c). split; [reflexivity|]. split; [discriminate|auto].
  - destruct (dict_get (kv :: c) CONFIG_KEY_SEARCH_DIRS) as [[| | | |l|]|] eqn:Hk;
      try (right; right; right; split; [reflexivity | intros l0; congruence]).
    left. exists (kv :: c). split; [reflexivity|]. split; [discriminate|].
    right. exists l. exact Hk.
Qed.

Lemma store_kept (self : plugin) (dirs : list pyval) :
  keeps_changes self ->
  _get_custom_dirs (store self dirs) = dirs /\
  (truthy (p_server_config_filename self) = true ->
   exists c', p_server_config (store self dirs) = Some c' /\
              p_write_attempts (store self dirs)
              = p_write_attempts self ++ [c']) /\
  (truthy (p_server_config_filename self) = false ->
   p_write_attempts (store self dirs) = p_write_attempts self).
Proof.
  intros (c & Hc & Hne & Hkeep).
  destruct c as [|kv c]; [congruence|]. clear Hne.
  assert (Hread : forall (self' : plugin) (c0 : dict),
            p_server_config self' = Some c0 -> c0 <> [] ->
            dict_get c0 CONFIG_KEY_SEARCH_DIRS = Some (VList dirs) ->
            _get_custom_dirs self' = dirs).
  { intros self' c0 H0 Hne0 Hget.
    rewrite (get_custom_dirs_config self' c0 H0 Hne0).
    unfold py_get_default. now rewrite Hget. }
  unfold store, _save_custom_dirs, update_in_place. rewrite Hc.
  destruct (dict_get (kv :: c) CONFIG_KEY_SEARCH_DIRS) as [v|] eqn:Hk.
  - destruct (truthy (p_server_config_filename self)) eqn:Hf.
    + assert (Hshape : exists c1,
                p_server_config
                  (match v with
                   | VList _ =>
                       set_config self
                         (dict_set (kv :: c) CONFIG_KEY_SEARCH_DIRS (VList dirs))
                   | _ => self
                   end) = Some c1 /\ c1 <> [] /\
                p_server_config_filename
                  (match v with
                   | VList _ =>
                       set_config self
                         (dict_set (kv :: c) CONFIG_KEY_SEARCH_DIRS (VList dirs))
                   | _ => self
                   end) = p_server_config_filename self /\
                p_write_attempts
                  (match v with
                   | VList _ =>
                       set_config self
                         (dict_set (kv :: c) CONFIG_KEY_SEARCH_DIRS (VList dirs))
                   | _ => self
                   end) = p_write_attempts self).
      { destruct v; try (exists (kv :: c); repeat split; auto; discriminate).
        eexists. split; [reflexivity|]. split; [apply dict_set_nonempty|].
        split; reflexivity. }
      destruct Hshape as (c1 & Hc1 & Hne1 & Hf1 & Hw1).
      rewrite Hc1. destruct c1 as [|kv1 c1]; [congruence|].
      rewrite Hf1, Hf.
      split; [|split; [intros _ | discriminate]].
      * apply (Hread _ (dict_set (kv1 :: c1) CONFIG_KEY_SEARCH_DIRS (VList dirs)));
          [reflexivity | apply dict_set_nonempty | apply dict_get_set_same].
      * eexists. split; [reflexivity|].
        cbn [log_write set_config p_write_attempts]. now rewrite Hw1.
    + destruct Hkeep as [Hkeep | [l Hl]]; [discriminate|].
      injection Hl as ->.
      cbn [set_config p_server_config p_server_config_filename].
      destruct (dict_set (kv :: c) CONFIG_KEY_SEARCH_DIRS (VList dirs))
        as [|kv' c'] eqn:Hset; [now apply dict_set_nonempty in Hset|].
      rewrite Hf.
      split; [|split; [discriminate | reflexivity]].
      apply (Hread _ (kv' :: c')); [reflexivity | discriminate|].
      rewrite <- Hset. apply dict_get_set_same.
  - destruct Hkeep as [Hf | [l Hl]]; [|congruence].
    rewrite Hc, Hf.
    split; [|split; [intros _ | discriminate]].
    + apply (Hread _ (dict_set (kv :: c) CONFIG_KEY_SEARCH_DIRS (VList dirs)));
        [reflexivity | apply dict_set_nonempty | apply dict_get_set_same].
    + eexists. split; reflexivity.
Qed.

Lemma store_not_kept (self : plugin) (dirs : list pyval) :
  p_server_config self = None \/ p_server_config self = Some [] \/
  (truthy (p_server_config_filename self) = false /\
   forall l, config_lookup self CONFIG_KEY_SEARCH_DIRS <> Some (VList l)) ->
  store self dirs = self.
Proof.
  unfold store, _save_custom_dirs, update_in_place, config_lookup.
  intros [Hc | [Hc | [Hf Hk]]]; rewrite ?Hc; try reflexivity.
  destruct (p_server_config self) as [[|kv c]|] eqn:Hc; rewrite ?Hc;
    try reflexivity.
  destruct (dict_get (kv :: c) CONFIG_KEY_SEARCH_DIRS) as [[| | | |l|]|];
    rewrite ?Hc, ?Hf; try reflexivity.
  now elim (Hk l).
Qed.

Lemma listed_keeps_changes (self : plugin) (x : pyval) :
  py_in x (_get_custom_dirs self) = true -> keeps_changes self.
Proof.
  unfold _get_custom_dirs, keeps_changes, py_get_default.
  destruct (p_server_config self) as [[|kv c]|]; try discriminate.
  destruct (dict_get (kv :: c) CONFIG_KEY_SEARCH_DIRS) as [[| | | |l|]|] eqn:Hk;
    try discriminate.
  intros _. exists (kv :: c). split; [reflexivity|]. split; [discriminate|].
  right. now exists l.
Qed.

Lemma listed_in_config (self : plugin) (x : pyval) :
  In x (_get_custom_dirs self) ->
  exists c, p_server_config self = Some c /\
            dict_get c CONFIG_KEY_SEARCH_DIRS
            = Some (VList (_get_custom_dirs self)).
Proof.
  unfold _get_custom_dirs, py_get_default.
  destruct (p_server_config self) as [[|kv c]|]; try (intros []).
  destruct (dict_get (kv :: c) CONFIG_KEY_SEARCH_DIRS) as [[| | | |l|]|] eqn:Hk;
    try (intros []).
  intros _. now exists (kv :: c).
Qed.

Lemma list_remove_appended (s : string) (l : list pyval) :
  py_in (VStr s) l = false ->
  list_remove (VStr s) (l ++ [VStr s]) = l.
Proof.
  unfold py_in. induction l as [|y l IH]; intros H.
  - cbn [app list_remove py_eq]. now rewrite String.eqb_refl.
  - cbn [existsb] in H. apply orb_false_elim in H as [Hy H].
    cbn [app list_remove]. rewrite py_eq_VStr_sym, Hy. f_equal. now apply IH.
Qed.

Lemma distinct_from_not_seen (l : list pyval) :
  forall seen s,
    distinct_from seen l = true -> In (VStr s) seen ->
    py_in (VStr s) l = false.
Proof.
  induction l as [|y l IH]; intros seen s Hd Hin; [reflexivity|].
  cbn [distinct_from] in Hd. apply andb_prop in Hd as [Hy Hd].
  apply negb_true_iff in Hy.
  unfold py_in. cbn [existsb]. apply orb_false_intro.
  - destruct (py_eq (VStr s) y) eqn:Heq; [|reflexivity].
    destruct y as [| | |s0| |]; try discriminate.
    cbn [py_eq] in Heq. apply String.eqb_eq in Heq. subst s0.
    unfold py_in in Hy.
    assert (Hex : existsb (py_eq (VStr s)) seen = true).
    { apply existsb_exists. exists (VStr s). split; [exact Hin|].
      cbn [py_eq]. apply String.eqb_refl. }
    congruence.
  - apply (IH (seen ++ [y])); [exact Hd | apply in_or_app; now left].
Qed.

Lemma distinct_remove_gone (s : string) (l : list pyval) :
  forall seen,
    distinct_from seen l = true ->
    py_in (VStr s) (list_remove (VStr s) l) = false.
Proof.
  induction l as [|y l IH]; intros seen Hd; [reflexivity|].
  cbn [distinct_from] in Hd. apply andb_prop in Hd as [_ Hd].
  cbn [list_remove].
  destruct (py_eq y (VStr s)) eqn:Heq.
  - destruct y as [| | |s0| |]; try discriminate.
    cbn [py_eq] in Heq. apply String.eqb_eq in Heq. subst s0.
    apply (distinct_from_not_seen l (seen ++ [VStr s])); [exact Hd|].
    apply in_or_app. right. now left.
  - unfold py_in. cbn [existsb]. rewrite <- py_eq_VStr_sym, Heq.
    cbn [orb]. now apply (IH (seen ++ [y])).
Qed.

Section HandlerFacts.

Variable E : env.
Variable strip : string -> string.
Variable abspath : string -> string.
Variable render : plugin -> M string.

Lemma add_directory_accepted (self : plugin) (s : string) :
  s <> "" -> strip s <> "" ->
  isdir (fs E) (abspath (strip s)) = true ->
  py_in (VStr (abspath (strip s))) (_get_custom_dirs self) = false ->
  fst (_add_directory E strip abspath render self (VStr s))
  = show (store self (_get_custom_dirs self ++ [VStr (abspath (strip s))]))
      (Info "Added directory: " (Some (VStr (abspath (strip s))))).
Proof.
  intros Hs Hstrip Hdir Hin. unfold _add_directory, store.
  apply truthy_VStr in Hs. apply truthy_VStr in Hstrip.
  rewrite Hs, Hstrip, Hdir, Hin. reflexivity.
Qed.

(** What [_add_directory] can do to the plugin: nothing but a
    notification, or the storing of one accepted directory. *)
Lemma add_directory_cases (self : plugin) (new_dir : pyval) :
  fst (_add_directory E strip abspath render self new_dir) = self \/
  (exists t, fst (_add_directory E strip abspath render self new_dir)
             = show self t) \/
  (exists s,
      new_dir = VStr s /\ s <> "" /\ strip s <> "" /\
      isdir (fs E) (abspath (strip s)) = true /\
      py_in (VStr (abspath (strip s))) (_get_custom_dirs self) = false /\
      fst (_add_directory E strip abspath render self new_dir)
      = show (store self (_get_custom_dirs self ++ [VStr (abspath (strip s))]))
          (Info "Added directory: " (Some (VStr (abspath (strip s)))))).
Proof.
  destruct (truthy new_dir) eqn:Ht.
  - destruct new_dir as [| | |s| |];
      try (left; unfold _add_directory; rewrite Ht; reflexivity).
    destruct (truthy (VStr (strip s))) eqn:Hstrip;
      [|right; left; eexists; unfold _add_directory;
        rewrite Ht, Hstrip; reflexivity].
    destruct (isdir (fs E) (abspath (strip s))) eqn:Hdir;
      [|right; left; eexists; unfold _add_directory;
        rewrite Ht, Hstrip, Hdir; reflexivity].
    destruct (py_in (VStr (abspath (strip s))) (_get_custom_dirs self)) eqn:Hin;
      [right; left; eexists; unfold _add_directory;
       rewrite Ht, Hstrip, Hdir, Hin; reflexivity|].
    right. right. exists s. apply truthy_VStr in Ht. apply truthy_VStr in Hstrip.
    repeat (split; [assumption || reflexivity|]).
    now apply add_directory_accepted.
  - right. left. eexists. unfold _add_directory. rewrite Ht. reflexivity.
Qed.

(** X20.  [_add_directory] touches no key of the configuration but the custom
    directories; it leaves that list as it is or appends to it one
    directory that exists and was not listed; so a list without repeated
    entries stays one. *)
Theorem add_directory_appends_one_new_directory (self : plugin)
  (new_dir : pyval) :
  let self' := fst (_add_directory E strip abspath render self new_dir) in
  (forall k, k <> CONFIG_KEY_SEARCH_DIRS ->
             config_lookup self' k = config_lookup self k) /\
  (_get_custom_dirs self' = _get_custom_dirs self \/
   exists s,
     new_dir = VStr s /\
     isdir (fs E) (abspath (strip s)) = true /\
     py_in (VStr (abspath (strip s))) (_get_custom_dirs self) = false /\
     _get_custom_dirs self'
     = _get_custom_dirs self ++ [VStr (abspath (strip s))]) /\
  (distinct_entries (_get_custom_dirs self) = true ->
   distinct_entries (_get_custom_dirs self') = true).
Proof.
  intros self'. subst self'.
  destruct (add_directory_cases self new_dir)
    as [-> | [[t ->] | (s & -> & Hs & Hstrip & Hdir & Hin & ->)]];
    try (split; [reflexivity | split; [now left | auto]]).
  set (d := abspath (strip s)) in *.
  assert (Hcustom : forall st t, _get_custom_dirs (show st t) = _get_custom_dirs st)
    by reflexivity.
  assert (Hlook : forall st t k, config_lookup (show st t) k = config_lookup st k)
    by reflexivity.
  rewrite Hcustom. split; [|split].
  - intros k Hk. rewrite Hlook. now apply store_other_keys.
  - destruct (keeps_changes_dec self) as [Hkeep | Hnot].
    + right. exists s. repeat (split; [assumption || reflexivity|]).
      now apply store_kept.
    + left. now rewrite store_not_kept.
  - intros Hdist. destruct (keeps_changes_dec self) as [Hkeep | Hnot].
    + destruct (store_kept self (_get_custom_dirs self ++ [VStr d]) Hkeep)
        as [-> _].
      unfold distinct_entries in *. rewrite distinct_from_snoc, Hdist.
      cbn [app andb]. now rewrite Hin.
    + now rewrite store_not_kept.
Qed.


(** X22.  When the plugin cannot keep changes (no configuration or an empty
    one, or no file name and no list stored yet), an accepted directory
    is not stored and no write is attempted, although the handler
    announces the directory as added. *)
Theorem add_directory_can_lose_the_directory (self : plugin) (s : string) :
  p_server_config self = None \/ p_server_config self = Some [] \/
  (truthy (p_server_config_filename self) = false /\
   forall l, config_lookup self CONFIG_KEY_SEARCH_DIRS <> Some (VList l)) ->
  s <> "" -> strip s <> "" ->
  isdir (fs E) (abspath (strip s)) = true ->
  let self' := fst (_add_directory E strip abspath render self (VStr s)) in
  p_server_config self' = p_server_config self /\
  _get_custom_dirs self' = [] /\
  p_write_attempts self' = p_write_attempts self /\
  p_toasts self'
  = p_toasts self ++ [Info "Added directory: "
                        (Some (VStr (abspath (strip s))))].
Proof.
  intros Hnot Hs Hstrip Hdir self'.
  assert (Hempty : _get_custom_dirs self = []).
  { unfold _get_custom_dirs, config_lookup, py_get_default in *.
    destruct Hnot as [-> | [-> | [_ Hk]]]; try reflexivity.
    destruct (p_server_config self) as [[|kv c]|]; try reflexivity.
    destruct (dict_get (kv :: c) CONFIG_KEY_SEARCH_DIRS) as [[| | | |l|]|];
      try reflexivity.
    now elim (Hk l). }
  assert (Hfst : self' = show (store self (_get_custom_dirs self
                                           ++ [VStr (abspath (strip s))]))
                           (Info "Added directory: "
                              (Some (VStr (abspath (strip s))))))
    by (apply add_directory_accepted; auto; now rewrite Hempty).
  rewrite store_not_kept in Hfst by exact Hnot.
  rewrite Hfst. repeat split; auto.
Qed.

(** X23.  [_remove_directory] takes the first entry equal to the selected value
    out of the custom directories, also when there is no file name to
    save under, and touches no other key; nothing changes for an empty
    selection or a value that is not listed.  When the list has no
    repeated entries, a removed directory is no longer listed. *)
Theorem remove_directory_removes_first_entry (self : plugin) (x : pyval) :
  let self' := fst (_remove_directory render self x) in
  _get_custom_dirs self'
  = (if truthy x && py_in x (_get_custom_dirs self)
     then list_remove x (_get_custom_dirs self)
     else _get_custom_dirs self) /\
  (forall k, k <> CONFIG_KEY_SEARCH_DIRS ->
             config_lookup self' k = config_lookup self k) /\
  (forall s, x = VStr s ->
             distinct_entries (_get_custom_dirs self) = true ->
             py_in x (_get_custom_dirs self) = true ->
             s <> "" ->
             py_in x (_get_custom_dirs self') = false).
Proof.
  intros self'.
  assert (Hfst : self' = if truthy x && py_in x (_get_custom_dirs self)
                         then show (store self (list_remove x (_get_custom_dirs self)))
                                (Info "Removed directory: " (Some x))
                         else if truthy x then self
                              else show self
                                     (Warning "Please select a directory to remove."
                                        None)).
  { subst self'. unfold _remove_directory, store.
    destruct (truthy x); cbn [negb andb]; [|reflexivity].
    destruct (py_in x (_get_custom_dirs self)); reflexivity. }
  assert (Hcustom : _get_custom_dirs self'
                    = if truthy x && py_in x (_get_custom_dirs self)
                      then list_remove x (_get_custom_dirs self)
                      else _get_custom_dirs self).
  { rewrite Hfst.
    destruct (truthy x) eqn:Ht; cbn [andb]; [|reflexivity].
    destruct (py_in x (_get_custom_dirs self)) eqn:Hin; [|reflexivity].
    change (_get_custom_dirs (store self (list_remove x (_get_custom_dirs self)))
            = list_remove x (_get_custom_dirs self)).
    apply store_kept. now apply (listed_keeps_changes self x). }
  split; [exact Hcustom|]. split.
  - intros k Hk. rewrite Hfst.
    destruct (truthy x && py_in x (_get_custom_dirs self)).
    + change (config_lookup (store self (list_remove x (_get_custom_dirs self))) k
              = config_lookup self k).
      now apply store_other_keys.
    + destruct (truthy x); reflexivity.
  - intros s -> Hdist Hin Hs. rewrite Hcustom.
    apply truthy_VStr in Hs. rewrite Hs, Hin. cbn [andb].
    now apply (distinct_remove_gone s _ []).
Qed.

(** X24.  Adding an accepted directory and then removing it gives back the
    custom directories there were. *)
Theorem add_then_remove_restores_custom_dirs (self : plugin) (s : string) :
  keeps_changes self ->
  s <> "" -> strip s <> "" -> abspath (strip s) <> "" ->
  isdir (fs E) (abspath (strip s)) = true ->
  py_in (VStr (abspath (strip s))) (_get_custom_dirs self) = false ->
  let added := fst (_add_directory E strip abspath render self (VStr s)) in
  _get_custom_dirs
    (fst (_remove_directory render added (VStr (abspath (strip s)))))
  = _get_custom_dirs self.
Proof.
  intros Hkeep Hs Hstrip Hd Hdir Hin added.
  assert (Hadded : _get_custom_dirs added
                   = _get_custom_dirs self ++ [VStr (abspath (strip s))]).
  { subst added. rewrite add_directory_accepted by assumption.
    change (_get_custom_dirs
              (store self (_get_custom_dirs self ++ [VStr (abspath (strip s))]))
            = _get_custom_dirs self ++ [VStr (abspath (strip s))]).
    now apply store_kept. }
  assert (Hlisted : py_in (VStr (abspath (strip s))) (_get_custom_dirs added)
                    = true).
  { rewrite Hadded. unfold py_in. rewrite existsb_app. simpl.
    rewrite String.eqb_refl. now rewrite orb_true_r. }
  assert (Hfst : fst (_remove_directory render added (VStr (abspath (strip s))))
                 = show (store added
                           (list_remove (VStr (abspath (strip s)))
                              (_get_custom_dirs added)))
                     (Info "Removed directory: "
                        (Some (VStr (abspath (strip s)))))).
  { unfold _remove_directory, store. apply truthy_VStr in Hd.
    rewrite Hd, Hlisted. reflexivity. }
  rewrite Hfst.
  change (_get_custom_dirs
            (store added (list_remove (VStr (abspath (strip s)))
                            (_get_custom_dirs added)))
          = _get_custom_dirs self).
  destruct (store_kept added
              (list_remove (VStr (abspath (strip s))) (_get_custom_dirs added))
              (listed_keeps_changes added _ Hlisted)) as [-> _].
  rewrite Hadded. now apply list_remove_appended.
Qed.

(** X25.  A directory stored by [_add_directory] is searched from then on: it
    is among the directories [get_configured_output_dirs] returns for the
    plugin afterwards. *)
Theorem added_directory_is_searched (self : plugin) (s : string)
  (dirs : list pyval) :
  keeps_changes self ->
  s <> "" -> strip s <> "" -> abspath (strip s) <> "" ->
  isdir (fs E) (abspath (strip s)) = true ->
  py_in (VStr (abspath (strip s))) (_get_custom_dirs self) = false ->
  let added := fst (_add_directory E strip abspath render self (VStr s)) in
  get_configured_output_dirs (env_of E added) = Ret dirs ->
  In (VStr (abspath (strip s))) dirs.
Proof.
  intros Hkeep Hs Hstrip Hd Hdir Hin added Hrun.
  assert (Hadded : _get_custom_dirs added
                   = _get_custom_dirs self ++ [VStr (abspath (strip s))]).
  { subst added. rewrite add_directory_accepted by assumption.
    change (_get_custom_dirs
              (store self (_get_custom_dirs self ++ [VStr (abspath (strip s))]))
            = _get_custom_dirs self ++ [VStr (abspath (strip s))]).
    now apply store_kept. }
  assert (Hin' : In (VStr (abspath (strip s))) (_get_custom_dirs added)).
  { rewrite Hadded. apply in_or_app. right. now left. }
  destruct (listed_in_config added _ Hin') as (c & Hc & Hk).
  destruct (configured_dirs_are_complete_aux (env_of E added) dirs Hrun)
    as (_ & _ & Hcustom).
  now apply (Hcustom c (_get_custom_dirs added) (abspath (strip s))).
Qed.

End HandlerFacts.

Lemma sample_plugin_keeps_changes : keeps_changes Configured.sample_plugin.
Proof.
  exists Configured.config. split; [reflexivity|].
  split; [discriminate | left; reflexivity].
Defined.

Lemma add_directory_appends_one_new_directory_witness :
  _get_custom_dirs
    (fst (_add_directory Configured.configured_env Configured.no_strip
            Configured.no_abspath Configured.no_render
            Configured.sample_plugin (VStr "/a")))
  = [VStr "/b"; VStr "/nowhere"; VStr "/out"; VStr "/a"] /\
  distinct_entries
    (_get_custom_dirs
       (fst (_add_directory Configured.configured_env Configured.no_strip
               Configured.no_abspath Configured.no_render
               Configured.sample_plugin (VStr "/a")))) = true.
Proof.
  split; [reflexivity|].
  apply (add_directory_appends_one_new_directory Configured.configured_env
           Configured.no_strip Configured.no_abspath Configured.no_render
           Configured.sample_plugin (VStr "/a")).
  reflexivity.
Defined.


Lemma add_directory_can_lose_the_directory_witness :
  _get_custom_dirs
    (fst (_add_directory Configured.configured_env Configured.no_strip
            Configured.no_abspath Configured.no_render
            Configured.bare_plugin (VStr "/a"))) = [] /\
  p_toasts
    (fst (_add_directory Configured.configured_env Configured.no_strip
            Configured.no_abspath Configured.no_render
            Configured.bare_plugin (VStr "/a")))
  = [Info "Added directory: " (Some (VStr "/a"))].
Proof.
  destruct (add_directory_can_lose_the_directory Configured.configured_env
              Configured.no_strip Configured.no_abspath Configured.no_render
              Configured.bare_plugin "/a") as (_ & Hcustom & _ & Htoasts).
  - right. left. reflexivity.
  - discriminate.
  - discriminate.
  - reflexivity.
  - split; [exact Hcustom | exact Htoasts].
Defined.

Lemma remove_directory_removes_first_entry_witness :
  _get_custom_dirs
    (fst (_remove_directory Configured.no_render Configured.sample_plugin
            (VStr "/nowhere")))
  = [VStr "/b"; VStr "/out"] /\
  py_in (VStr "/nowhere")
    (_get_custom_dirs
       (fst (_remove_directory Configured.no_render Configured.sample_plugin
               (VStr "/nowhere")))) = false.
Proof.
  destruct (remove_directory_removes_first_entry Configured.no_render
              Configured.sample_plugin (VStr "/nowhere")) as (Hcustom & _ & Hgone).
  split; [exact Hcustom|].
  apply (Hgone "/nowhere"); [reflexivity | reflexivity | reflexivity | discriminate].
Defined.

Lemma add_then_remove_restores_custom_dirs_witness :
  _get_custom_dirs
    (fst (_remove_directory Configured.no_render
            (fst (_add_directory Configured.configured_env Configured.no_strip
                    Configured.no_abspath Configured.no_render
                    Configured.sample_plugin (VStr "/a")))
            (VStr "/a")))
  = [VStr "/b"; VStr "/nowhere"; VStr "/out"].
Proof.
  apply (add_then_remove_restores_custom_dirs Configured.configured_env
           Configured.no_strip Configured.no_abspath Configured.no_render
           Configured.sample_plugin "/a").
  - exact sample_plugin_keeps_changes.
  - discriminate.
  - discriminate.
  - discriminate.
  - reflexivity.
  - reflexivity.
Defined.

Lemma added_directory_is_searched_witness :
  In (VStr "/a") [VStr "/out"; VStr "/b"; VStr "/a"; VStr "/app/outputs"].
Proof.
  apply (added_directory_is_searched Configured.configured_env
           Configured.no_strip Configured.no_abspath Configured.no_render
           Configured.sample_plugin "/a").
  - exact sample_plugin_keeps_changes.
  - discriminate.
  - discriminate.
  - discriminate.
  - reflexivity.
  - reflexivity.
  - reflexivity.
Defined.

(* ------------------------------------------------------------------ *)
(** ** When the hook cannot raise *)







(* ------------------------------------------------------------------ *)
(** ** The hook with its [print] calls *)

Section PrintingFacts.

Variable E : env.
Variable print_ok : message -> bool.











End PrintingFacts.


(* ------------------------------------------------------------------ *)
(** ** [load_source_image] *)

(** X26.  An image [load_source_image] returns was opened from the path
    [resolve_source_image] returned, and that path is an existing regular
    file, so a directory that the resolver returned is never opened.
    When the import of [PIL] succeeds and every [print] succeeds, the
    call returns whenever the resolver returns: the file check cannot
    raise on a resolved path and a failing [Image.open] gives [None]. *)
Theorem load_source_image_adds_no_failure (E : env) (import_ok : bool)
  (image : Type) (image_open : pyval -> option image)
  (print_ok : message -> bool) (source_info : pyval)
  (sd : option (list pyval)) :
  (forall img,
      load_source_image E import_ok image image_open print_ok source_info sd
      = IORet (Some img) ->
      exists path,
        resolve_source_image E source_info sd = Ret path /\
        os_path_isfile E path = Ret true /\
        image_open path = Some img) /\
  (import_ok = true ->
   (forall msg, print_ok msg = true) ->
   forall path,
     resolve_source_image E source_info sd = Ret path ->
     exists r,
       load_source_image E import_ok image image_open print_ok source_info sd
       = IORet r).
Proof.
  unfold load_source_image. split.
  - intros img Hrun.
    destruct import_ok; cbn [negb] in Hrun; [|discriminate].
    destruct (resolve_source_image E source_info sd) as [path|e];
      [|discriminate].
    exists path. split; [reflexivity|]. cbn [of_M io_bind] in Hrun.
    destruct (truthy path).
    + destruct (os_path_isfile E path) as [[|]|e]; try discriminate.
      cbn [of_M io_bind] in Hrun.
      destruct (image_open path) as [img'|]; [injection Hrun as ->; auto|].
      unfold print in Hrun. destruct (print_ok _); discriminate.
    + discriminate.
  - intros -> Hok path Hres. rewrite Hres. cbn [negb of_M io_bind].
    destruct (truthy path) eqn:Ht; [|cbn [of_M io_bind]; eauto].
    destruct (resolve_source_image_path E source_info path sd Hres Ht)
      as [_ Hshape].
    assert (Hfile : exists ok, os_path_isfile E path = Ret ok)
      by (destruct path; try contradiction; simpl; eauto).
    destruct Hfile as [ok ->]. cbn [of_M io_bind].
    destruct ok; [|eauto].
    destruct (image_open path); [eauto|].
    unfold print. rewrite Hok. cbn [io_bind]. eauto.
Qed.

Lemma load_source_image_adds_no_failure_witness :
  exists r,
    load_source_image sample_env true nat (fun _ => None) (fun _ => true)
      (VStr "/real/a.png") None = IORet r.
Proof.
  destruct (load_source_image_adds_no_failure sample_env true nat
              (fun _ => None) (fun _ => true) (VStr "/real/a.png") None)
    as [_ Htotal].
  apply (Htotal eq_refl (fun _ => eq_refl) (VStr "/real/a.png")).
  reflexivity.
Defined.

(* ------------------------------------------------------------------ *)
(** ** The recursive search and the entries of the subtree *)

(** C2, as stated, fails.  The subtree of [/out] holds two entries named
    [pic.png], and the one below the hidden directory [.y] is the more
    recent; [glob] does not go into hidden directories, and the older
    entry is returned.  And when a listed entry cannot be stat-ed any
    more, nothing is returned: the call raises. *)
Lemma C2_counterexample :
  Subtree.subtree_named Subtree.hidden_root "/out" "pic.png"
  = ["/out/x/pic.png"; "/out/.y/pic.png"] /\
  getmtime (fs (Subtree.tree_env Subtree.hidden_root)) "/out/x/pic.png"
  = Some 10%Z /\
  getmtime (fs (Subtree.tree_env Subtree.hidden_root)) "/out/.y/pic.png"
  = Some 20%Z /\
  isfile (fs (Subtree.tree_env Subtree.hidden_root)) "/out/pic.png" = false /\
  find_file_by_name (Subtree.tree_env Subtree.hidden_root) (VStr "pic.png")
    (Some [VStr "/out"]) true = Ret (VStr "/out/x/pic.png") /\
  find_file_by_name Racing.racing_env (VStr "pic.png") (Some [VStr "/out"]) true
  = Raise OSError /\
  ~ (forall (root : TreeFS.node) (d f : string),
        f <> "" ->
        isdir (fs (Subtree.tree_env root)) d = true ->
        isfile (fs (Subtree.tree_env root)) (path_join d f) = false ->
        (2 <= length (Subtree.subtree_named root d f))%nat ->
        exists m,
          find_file_by_name (Subtree.tree_env root) (VStr f)
            (Some [VStr d]) true = Ret (VStr m) /\
          In m (Subtree.subtree_named root d f) /\
          forall e, In e (Subtree.subtree_named root d f) ->
                    (mtime_of (Subtree.tree_env root) e
                     <= mtime_of (Subtree.tree_env root) m)%Z).
Proof.
  repeat (split; [reflexivity|]).
  intros H.
  destruct (H Subtree.hidden_root "/out" "pic.png") as (m & Hm & _ & Hmax).
  - discriminate.
  - reflexivity.
  - reflexivity.
  - vm_compute. apply le_n.
  - assert (Hfound : m = "/out/x/pic.png").
    { vm_compute in Hm. now injection Hm as <-. }
    subst m.
    specialize (Hmax "/out/.y/pic.png").
    assert (Hin : In "/out/.y/pic.png"
                    (Subtree.subtree_named Subtree.hidden_root "/out" "pic.png"))
      by (right; left; reflexivity).
    specialize (Hmax Hin). vm_compute in Hmax. now apply Hmax.
Qed.
